(** * The slide-deck pipeline of the teaching assistant

    A shallow embedding of the intent classifier, the JSON extractor, the
    content generator, the slide-count normalisation, the deck renderer and
    the request driver of [streamlit1.py], together with the multilingual
    classifier of [streamlit_multilingual_voice_input.py] (the other
    functions of that file are textually the same as in [streamlit1.py]).
    The chat query of both files and the language detector, the language
    selector and the request driver of the multilingual file follow.

    Python's built-ins and the third-party libraries are not part of the
    repository.  What the development needs of them is either written out
    (substring test, [str.strip], the regular-expression engine on the
    constructs the two patterns use, the paragraph model of python-pptx) or
    taken as a parameter ([str.lower], [str.capitalize], [json.loads],
    [str] of a value, the slide template). *)

From Stdlib Require Import List NArith Arith Bool Ascii Lia.
From Stdlib Require String DecimalString.
From Equations Require Import Equations.
Import ListNotations.
Import String.StringSyntax.
Open Scope string_scope.

Set Warnings "-register-all".

Set Implicit Arguments.

(* ================================================================== *)
(** * Python strings *)
(* ================================================================== *)

Module Py.

(** A Python [str] is a sequence of Unicode code points. *)
Definition pystr := list N.

(** An ASCII literal of the source. *)
Definition lit (s : String.string) : pystr :=
  map N_of_ascii (String.list_ascii_of_string s).

Fixpoint str_eqb (a b : pystr) : bool :=
  match a, b with
  | [], [] => true
  | x :: a', y :: b' => N.eqb x y && str_eqb a' b'
  | _, _ => false
  end.

(** [s.startswith(p)] *)
Fixpoint startswith (p s : pystr) : bool :=
  match p, s with
  | [], _ => true
  | _ :: _, [] => false
  | a :: p', b :: s' => N.eqb a b && startswith p' s'
  end.

(** [needle in hay] on two strings. *)
Fixpoint str_in (needle hay : pystr) : bool :=
  startswith needle hay
  || match hay with
     | [] => false
     | _ :: rest => str_in needle rest
     end.

(** [c.isspace()] for one code point; the same set is what [str.strip()]
    removes and what [\s] matches in a [str] pattern. *)
Definition isspace (c : N) : bool :=
  ((9 <=? c) && (c <=? 13) || (28 <=? c) && (c <=? 32)
   || (c =? 133) || (c =? 160) || (c =? 5760)
   || (8192 <=? c) && (c <=? 8202)
   || (c =? 8232) || (c =? 8233) || (c =? 8239) || (c =? 8287)
   || (c =? 12288))%N.

(** [s.lstrip()] *)
Fixpoint lstrip (s : pystr) : pystr :=
  match s with
  | [] => []
  | c :: rest => if isspace c then lstrip rest else s
  end.

(** [s.rstrip()] *)
Definition rstrip (s : pystr) : pystr := rev (lstrip (rev s)).

(** [s.strip()] *)
Definition strip (s : pystr) : pystr := rstrip (lstrip s).

(** [s.replace(old, new)] for a one-character [old]. *)
Definition replace_char (old : N) (new : pystr) (s : pystr) : pystr :=
  flat_map (fun c => if N.eqb c old then new else [c]) s.

(** What [str.lower] does to one ASCII code point. *)
Definition ascii_lower (c : N) : N :=
  if ((65 <=? c) && (c <=? 90))%N then (c + 32)%N else c.

(** What [str.upper] does to one ASCII code point. *)
Definition ascii_upper (c : N) : N :=
  if ((97 <=? c) && (c <=? 122))%N then (c - 32)%N else c.

(** [str.lower] where every case mapping outside ASCII is left out: the
    instance of the [lower] parameter used on concrete inputs. *)
Definition lower_ascii_only (s : pystr) : pystr := map ascii_lower s.

(** [str.capitalize], likewise on ASCII letters only. *)
Definition capitalize_ascii_only (s : pystr) : pystr :=
  match s with
  | [] => []
  | c :: rest => ascii_upper c :: map ascii_lower rest
  end.

End Py.

Import Py.

(* ================================================================== *)
(** * Regular expressions: the part of [re] the two patterns use *)
(* ================================================================== *)

Module Re.

(** One-character items. *)
Inductive cset : Type :=
| CChar (c : N)       (* a literal character *)
| CAny                (* [.] under [re.DOTALL] *)
| CDot                (* [.] without the flag: anything but a newline *)
| CSpace.             (* [\s] *)

Definition cset_match (cs : cset) (c : N) : bool :=
  match cs with
  | CChar d => N.eqb c d
  | CAny => true
  | CDot => negb (N.eqb c 10)
  | CSpace => isspace c
  end.

Inductive regex : Type :=
| Eps
| One (cs : cset)
| Seq (r1 r2 : regex)
| Alt (r1 r2 : regex)       (* r1|r2, r1 tried first *)
| Opt (r : regex)           (* r?  greedy *)
| Star (r : regex)          (* r*  greedy *)
| Group (r : regex).        (* ( r ), the pattern's single capturing group *)

(** [r+] *)
Definition Plus (r : regex) : regex := Seq r (Star r).

(** A literal word. *)
Fixpoint Word (w : pystr) : regex :=
  match w with
  | [] => Eps
  | c :: w' => Seq (One (CChar c)) (Word w')
  end.

(** A match in progress: what is left of the subject, and the text of the
    capturing group if it has taken part in the match. *)
Definition cont (R : Type) := pystr -> option pystr -> option R.

Definition orelse {R} (a : option R) (b : option R) : option R :=
  match a with
  | Some x => Some x
  | None => b
  end.

(** The backtracking matcher, in continuation-passing style: alternatives
    are tried in order and a repetition takes as many rounds as it can
    before giving one back.  A round of a repetition has to consume a
    character, which is how the engine keeps [( )*] over an empty match
    from looping. *)
Fixpoint mt {R} (r : regex) (s : pystr) (g : option pystr) (k : cont R)
  {struct r} : option R :=
  match r with
  | Eps => k s g
  | One cs =>
      match s with
      | c :: s' => if cset_match cs c then k s' g else None
      | [] => None
      end
  | Seq r1 r2 => mt r1 s g (fun s' g' => mt r2 s' g' k)
  | Alt r1 r2 => orelse (mt r1 s g k) (mt r2 s g k)
  | Opt r1 => orelse (mt r1 s g k) (k s g)
  | Star r1 =>
      (fix rounds (fuel : nat) (s : pystr) (g : option pystr) : option R :=
         match fuel with
         | O => k s g
         | S fuel' =>
             orelse
               (mt r1 s g
                   (fun s' g' =>
                      if length s' <? length s then rounds fuel' s' g'
                      else None))
               (k s g)
         end) (length s) s g
  | Group r1 =>
      mt r1 s g
         (fun s' _ => k s' (Some (firstn (length s - length s') s)))
  end.

(** A match object: [group(0)] and [group(1)]. *)
Record match_obj : Type := MkMatch {
  group0 : pystr;
  group1 : option pystr
}.

(** [re.match]: a match anchored at the start of [s]. *)
Definition match_at (r : regex) (s : pystr) : option match_obj :=
  mt r s None
     (fun s' g => Some (MkMatch (firstn (length s - length s') s) g)).

(** [re.search]: the match at the leftmost position that has one. *)
Fixpoint search (r : regex) (s : pystr) : option match_obj :=
  orelse (match_at r s)
         (match s with
          | [] => None
          | _ :: s' => search r s'
          end).

End Re.

(* ================================================================== *)
(** * Python values, exceptions, results *)
(* ================================================================== *)

Module Value.

(** What [json.loads] can return, which is also all the data the pipeline
    passes around.  A number keeps its lexeme: nothing here computes with
    one.  A [dict] is its list of entries in insertion order, with distinct
    keys; a lookup takes the first entry of the key. *)
Inductive pyvalue : Type :=
| VNone
| VBool (b : bool)
| VNum (lexeme : pystr)
| VStr (s : pystr)
| VList (items : list pyvalue)
| VDict (entries : list (pystr * pyvalue)).

Inductive exn_class : Type :=
| KeyError
| TypeError
| AttributeError
| IndexError
| OtherException.    (* any other subclass of [Exception] *)

(** An instance of [Exception] with the text [str(e)] gives.  [except
    Exception] catches every one of them. *)
Record pyexn : Type := MkExn {
  exn_class_of : exn_class;
  exn_str : pystr
}.

(** [str(KeyError(key))] is the [repr] of the key. *)
Definition key_error (key : pystr) : pyexn :=
  MkExn KeyError (lit "'" ++ key ++ lit "'").

(** The message of a [TypeError] depends on the operand; the ones raised
    below are never read back by the program. *)
Definition type_error (what : pystr) : pyexn := MkExn TypeError what.

Definition attribute_error (what : pystr) : pyexn :=
  MkExn AttributeError what.

Inductive outcome (A : Type) : Type :=
| Returned (a : A)
| Raised (e : pyexn).

Arguments Returned {A} a.
Arguments Raised {A} e.

Definition obind {A B} (m : outcome A) (f : A -> outcome B) : outcome B :=
  match m with
  | Returned a => f a
  | Raised e => Raised e
  end.

Fixpoint dict_lookup (key : pystr) (kv : list (pystr * pyvalue))
  : option pyvalue :=
  match kv with
  | [] => None
  | (k, v) :: rest => if str_eqb k key then Some v else dict_lookup key rest
  end.

(** [key in d] for a dict [d]. *)
Definition has_key (key : pystr) (kv : list (pystr * pyvalue)) : bool :=
  match dict_lookup key kv with
  | Some _ => true
  | None => false
  end.

(** [d\[key\] = v]: the entry is replaced in place, or added at the end. *)
Fixpoint dict_set (key : pystr) (v : pyvalue) (kv : list (pystr * pyvalue))
  : list (pystr * pyvalue) :=
  match kv with
  | [] => [(key, v)]
  | (k, w) :: rest =>
      if str_eqb k key then (k, v) :: rest else (k, w) :: dict_set key v rest
  end.

(** [d.get(key, default)] *)
Definition dict_get (key : pystr) (default : pyvalue)
  (kv : list (pystr * pyvalue)) : pyvalue :=
  match dict_lookup key kv with
  | Some v => v
  | None => default
  end.

(** [v\[key\]] for a string key. *)
Definition getitem (v : pyvalue) (key : pystr) : outcome pyvalue :=
  match v with
  | VDict kv =>
      match dict_lookup key kv with
      | Some x => Returned x
      | None => Raised (key_error key)
      end
  | _ => Raised (type_error (lit "bad subscript"))
  end.

(** [v == s] for a string [s]. *)
Definition eq_str (v : pyvalue) (s : pystr) : bool :=
  match v with
  | VStr t => str_eqb t s
  | _ => false
  end.

(** [s in v] for a string [s]: a key of a dict, an element of a list, a
    substring of a string; anything else is not a container. *)
Definition py_in (s : pystr) (v : pyvalue) : outcome bool :=
  match v with
  | VDict kv => Returned (has_key s kv)
  | VList l => Returned (existsb (fun x => eq_str x s) l)
  | VStr t => Returned (str_in s t)
  | _ => Raised (type_error (lit "argument is not iterable"))
  end.

(** [len(v)] *)
Definition py_len (v : pyvalue) : outcome nat :=
  match v with
  | VList l => Returned (length l)
  | VStr s => Returned (length s)
  | VDict kv => Returned (length kv)
  | _ => Raised (type_error (lit "object has no len()"))
  end.

(** The items a [for] loop over [v] visits. *)
Definition py_iter (v : pyvalue) : outcome (list pyvalue) :=
  match v with
  | VList l => Returned l
  | VStr s => Returned (map (fun c => VStr [c]) s)
  | VDict kv => Returned (map (fun e => VStr (fst e)) kv)
  | _ => Raised (type_error (lit "object is not iterable"))
  end.

(** A value handed to a [.text] setter has to be a string. *)
Definition as_text (v : pyvalue) : outcome pystr :=
  match v with
  | VStr s => Returned s
  | _ => Raised (type_error (lit "text must be str"))
  end.

(** [for x in l: ...] with a body that can raise: the loop threads its
    state through the items and stops at the first exception. *)
Fixpoint for_each {A S} (body : S -> A -> outcome S) (l : list A) (st : S)
  : outcome S :=
  match l with
  | [] => Returned st
  | x :: rest => obind (body st x) (for_each body rest)
  end.

End Value.

Import Value.

Declare Scope outcome_scope.
Delimit Scope outcome_scope with outcome.
Notation "x <- m ;; k" := (obind m (fun x => k))
  (at level 61, m at next level, right associativity) : outcome_scope.

(* ================================================================== *)
(** * The part of python-pptx the renderer drives *)
(* ================================================================== *)

Module Pptx.

Inductive align : Type := LEFT | CENTER.

Record rgb : Type := RGBColor { red : N; green : N; blue : N }.

(** The font attributes the renderer sets on the runs of a paragraph;
    sizes are in points. *)
Record font : Type := MkFont {
  f_size : option nat;
  f_bold : bool;
  f_italic : bool;
  f_color : option rgb
}.

Definition plain_font : font := MkFont None false false None.

Record paragraph : Type := MkPara {
  p_text : pystr;
  p_level : nat;
  p_alignment : option align;
  p_space_before : option nat;
  p_font : font
}.

(** What [tf.add_paragraph()] returns. *)
Definition new_paragraph : paragraph := MkPara [] 0 None None plain_font.

Definition with_text (t : pystr) (p : paragraph) : paragraph :=
  MkPara t (p_level p) (p_alignment p) (p_space_before p) (p_font p).

Definition with_level (n : nat) (p : paragraph) : paragraph :=
  MkPara (p_text p) n (p_alignment p) (p_space_before p) (p_font p).

Definition with_alignment (a : align) (p : paragraph) : paragraph :=
  MkPara (p_text p) (p_level p) (Some a) (p_space_before p) (p_font p).

Definition with_space_before (pt : nat) (p : paragraph) : paragraph :=
  MkPara (p_text p) (p_level p) (p_alignment p) (Some pt) (p_font p).

(** [for run in p.runs: <set font attributes>]: a paragraph without text
    has no run, and the loop body is not reached. *)
Definition style_runs (f : font -> font) (p : paragraph) : paragraph :=
  match p_text p with
  | [] => p
  | _ => MkPara (p_text p) (p_level p) (p_alignment p) (p_space_before p)
                (f (p_font p))
  end.

Definition set_size (pt : nat) (f : font) : font :=
  MkFont (Some pt) (f_bold f) (f_italic f) (f_color f).
Definition set_bold (f : font) : font :=
  MkFont (f_size f) true (f_italic f) (f_color f).
Definition set_italic (f : font) : font :=
  MkFont (f_size f) (f_bold f) true (f_color f).
Definition set_color (c : rgb) (f : font) : font :=
  MkFont (f_size f) (f_bold f) (f_italic f) (Some c).

(** A text frame is its paragraphs.  A new shape has one empty paragraph,
    [tf.clear()] leaves one empty paragraph, [shape.text = t] leaves the
    text [t] (kept here as one paragraph, line breaks included), and
    [tf.add_paragraph()] adds one at the end. *)
Definition text_frame := list paragraph.

Definition fresh_frame : text_frame := [new_paragraph].
Definition clear (tf : text_frame) : text_frame := [new_paragraph].
Definition set_text (t : pystr) : text_frame := [with_text t new_paragraph].
Definition add_paragraph (tf : text_frame) (p : paragraph) : text_frame :=
  tf ++ [p].

(** A slide layout of the template, as far as the renderer looks at it:
    whether a slide made from it has a title shape, and how many
    placeholders it has. *)
Record layout : Type := MkLayout {
  has_title : bool;
  n_placeholders : nat
}.

(** The layouts 0, 1, 2 and 5 of the template [Presentation()] loads:
    Title Slide, Title and Content, Section Header (a title and a second
    placeholder each) and Title Only. *)
Definition default_layouts (i : nat) : layout :=
  match i with
  | 5 => MkLayout true 1
  | _ => MkLayout true 2
  end.

(** A slide under construction: the layout it was added with, the text
    frame of the title shape and of placeholder 1 (where the layout has
    them), and the text boxes added to it. *)
Record slide : Type := MkSlide {
  s_layout : nat;
  s_title : option text_frame;
  s_body : option text_frame;
  s_textboxes : list text_frame
}.

(** [prs.slides.add_slide(layout)] *)
Definition add_slide (layouts : nat -> layout) (i : nat) : slide :=
  MkSlide i
    (if has_title (layouts i) then Some fresh_frame else None)
    (if 1 <? n_placeholders (layouts i) then Some fresh_frame else None)
    [].

Definition with_title (tf : text_frame) (s : slide) : slide :=
  MkSlide (s_layout s) (Some tf) (s_body s) (s_textboxes s).
Definition with_body (tf : text_frame) (s : slide) : slide :=
  MkSlide (s_layout s) (s_title s) (Some tf) (s_textboxes s).
Definition with_textbox (tf : text_frame) (s : slide) : slide :=
  MkSlide (s_layout s) (s_title s) (s_body s) (s_textboxes s ++ [tf]).

End Pptx.

Import Pptx.

(* ================================================================== *)
(** * Programs with effects *)
(* ================================================================== *)

Module Eff.

(** One message of a chat-completion request. *)
Record message : Type := MkMsg { role : pystr; content : pystr }.

Record chat_request : Type := MkReq {
  req_model : pystr;
  req_messages : list message
}.

(** [response.choices\[i\].message.content] is a string or [None]. *)
Record choice : Type := MkChoice { message_content : option pystr }.
Record response : Type := MkResp { choices : list choice }.

(** What the driver does to the page and to the file system. *)
Inductive effect : Type :=
| NewContainer                          (* st.empty() *)
| Info (msg : pystr)                    (* container.info(msg) *)
| Spinner (msg : pystr)                 (* with st.spinner(msg) *)
| Subheader (msg : pystr)
| Write (msg : pystr)
| SaveDeck (path : pystr) (deck : list slide)     (* prs.save(path) *)
| ReadFile (path : pystr)
| DownloadButton (label file_name key : pystr)
| EmptyContainer.                       (* container.empty() *)

(** A program is a tree: it returns, raises, asks the remote model and goes
    on with the answer (or the exception of the call), or performs an
    effect and goes on. *)
Inductive prog (A : Type) : Type :=
| Ret (a : A)
| Raise (e : pyexn)
| Chat (rq : chat_request) (k : outcome response -> prog A)
| Do (e : effect) (k : prog A).

Arguments Ret {A} a.
Arguments Raise {A} e.
Arguments Chat {A} rq k.
Arguments Do {A} e k.

Fixpoint bind {A B} (m : prog A) (f : A -> prog B) : prog B :=
  match m with
  | Ret a => f a
  | Raise e => Raise e
  | Chat rq k => Chat rq (fun r => bind (k r) f)
  | Do e k => Do e (bind k f)
  end.

(** [try: m  except Exception as e: h e] *)
Fixpoint try_except {A} (m : prog A) (h : pyexn -> prog A) : prog A :=
  match m with
  | Ret a => Ret a
  | Raise e => h e
  | Chat rq k => Chat rq (fun r => try_except (k r) h)
  | Do e k => Do e (try_except k h)
  end.

Definition lift {A} (o : outcome A) : prog A :=
  match o with
  | Returned a => Ret a
  | Raised e => Raise e
  end.

(** [client.chat.completions.create(model=..., messages=...)] *)
Definition chat_completions_create (model : pystr) (msgs : list message)
  : prog response :=
  Chat (MkReq model msgs) lift.

(** What an execution leaves behind, in order. *)
Inductive event : Type :=
| RemoteCall (rq : chat_request)
| Effect (e : effect).

(** Running a program against a remote service. *)
Fixpoint run {A} (remote : chat_request -> outcome response) (m : prog A)
  : outcome A * list event :=
  match m with
  | Ret a => (Returned a, [])
  | Raise e => (Raised e, [])
  | Chat rq k =>
      let (r, t) := run remote (k (remote rq)) in (r, RemoteCall rq :: t)
  | Do e k =>
      let (r, t) := run remote k in (r, Effect e :: t)
  end.

(** An event that renders or stores the presentation file. *)
Definition is_artifact (ev : event) : bool :=
  match ev with
  | Effect (SaveDeck _ _) => true
  | Effect (ReadFile _) => true
  | Effect (DownloadButton _ _ _) => true
  | _ => false
  end.

End Eff.

Import Eff.

Declare Scope prog_scope.
Delimit Scope prog_scope with prog.
Notation "x <~ m ;; k" := (bind m (fun x => k))
  (at level 61, m at next level, right associativity) : prog_scope.
Notation "m ;;; k" := (bind m (fun _ => k))
  (at level 61, right associativity) : prog_scope.

(* ================================================================== *)
(** * What the program takes from its environment *)
(* ================================================================== *)

(** Built-ins and library calls whose code is outside the repository, and
    the two prompt texts of the file at hand, which no property below
    reads.  [json_loads]
    returns the parsed value or the exception of the parser; [py_str] is
    [str(v)], which is also what an f-string puts in for [{v}]. *)
Class Runtime : Type := {
  lower : pystr -> pystr;
  capitalize : pystr -> pystr;
  json_loads : pystr -> outcome pyvalue;
  py_str : pyvalue -> pystr;
  slide_layouts : nat -> layout;
  classifier_prompt : pystr;
  generator_prompt : pystr
}.

(** [str(n)] for a natural number. *)
Definition str_of_nat (n : nat) : pystr :=
  lit (DecimalString.NilEmpty.string_of_uint (Nat.to_uint n)).

Definition default_model : pystr := lit "llama-3.3-70b-versatile".
Definition ppt_generation : pystr := lit "ppt_generation".
Definition normal_query : pystr := lit "normal_query".

(** [response.choices\[0\].message.content], up to the method call the
    source makes on it: an empty list of choices raises [IndexError], and
    a [None] content has no [strip]. *)
Definition first_content (r : response) : outcome pystr :=
  match choices r with
  | [] => Raised (MkExn IndexError (lit "list index out of range"))
  | c :: _ =>
      match message_content c with
      | Some s => Returned s
      | None =>
          Raised (attribute_error
                    (lit "'NoneType' object has no attribute 'strip'"))
      end
  end.

(* ================================================================== *)
(** * streamlit1.py *)
(* ================================================================== *)

Module Streamlit1.
Section App.
Context {RT : Runtime}.
Local Open Scope prog_scope.

(** ** Intent classification *)

Definition ppt_keywords : list pystr :=
  [ lit "ppt"; lit "powerpoint"; lit "presentation"; lit "slide";
    lit "slides"; lit "deck";
    lit "create a presentation"; lit "make a presentation";
    lit "generate a presentation";
    lit "create a ppt"; lit "make a ppt"; lit "generate a ppt";
    lit "create slides"; lit "make slides"; lit "generate slides" ].

Definition classify_intent (query : pystr) (model : pystr) : prog pystr :=
  let query_lower := lower query in
  if existsb (fun keyword => str_in keyword query_lower) ppt_keywords
  then Ret ppt_generation
  else
    try_except
      (response <~ chat_completions_create model
                     [ MkMsg (lit "system") classifier_prompt;
                       MkMsg (lit "user") query ] ;;
       text <~ lift (first_content response) ;;
       let classification := lower (strip text) in
       if str_in (lit "ppt_generation") classification
       then Ret ppt_generation
       else Ret normal_query)
      (fun _ => Ret normal_query).

(** ** JSON extraction *)

(** The pattern [\{.*\}] under [re.DOTALL]. *)
Definition json_pattern : Re.regex :=
  Re.Seq (Re.One (Re.CChar 123))
         (Re.Seq (Re.Star (Re.One Re.CAny)) (Re.One (Re.CChar 125))).

(** [None] is Python's [None]. *)
Definition extract_json (text : pystr) : option pystr :=
  match Re.search json_pattern text with
  | Some m => Some (Re.group0 m)
  | None => None
  end.

(** ** Content generation *)

Definition error_dict (msg : pystr) : pyvalue :=
  VDict [ (lit "error", VStr msg) ].

Definition generate_presentation_content (prompt : pystr) (model : pystr)
  : prog pyvalue :=
  try_except
    (response <~ chat_completions_create model
                   [ MkMsg (lit "system") generator_prompt;
                     MkMsg (lit "user") prompt ] ;;
     text <~ lift (first_content response) ;;
     let output := strip text in
     match extract_json output with
     | Some (c :: json_str) => lift (json_loads (c :: json_str))
     | _ => Ret (error_dict (lit "No valid JSON found."))
     end)
    (fun e => Ret (error_dict (exn_str e))).

(** ** Rendering *)

(** [color_schemes\[0\]], the blue theme. *)
Definition color_title : rgb := RGBColor 0 112 192.
Definition color_text : rgb := RGBColor 0 0 0.
Definition color_accent : rgb := RGBColor 79 129 189.

Definition filler_slide : pyvalue :=
  VDict [ (lit "title", VStr (lit "Additional Information"));
          (lit "type", VStr (lit "bullet_points"));
          (lit "points",
           VList [ VStr (lit "Key point about the topic");
                   VStr (lit "Supporting information");
                   VStr (lit "Additional detail");
                   VStr (lit "Final point") ]) ].

(** [while len(slides) < 6: slides.append(filler)] on a list. *)
Equations? pad_slides (slides : list pyvalue) : list pyvalue
  by wf (6 - length slides) lt :=
  pad_slides slides with lt_dec (length slides) 6 := {
    | left short => pad_slides (slides ++ [filler_slide]);
    | right _ => slides }.
Proof.
  change (6 - length (slides ++ [filler_slide]) < 6 - length slides).
  rewrite length_app; cbn [length]; lia.
Qed.

(** [v\[:6\]] *)
Definition slice6 (v : pyvalue) : outcome pyvalue :=
  match v with
  | VList l => Returned (VList (firstn 6 l))
  | VStr s => Returned (VStr (firstn 6 s))
  | _ => Raised (type_error (lit "object cannot be sliced"))
  end.

(** [d\[key\] = v] on the presentation data. *)
Definition setitem (d : pyvalue) (key : pystr) (v : pyvalue) : pyvalue :=
  match d with
  | VDict kv => VDict (dict_set key v kv)
  | _ => d
  end.

(** The block under [# Ensure we have exactly 6 slides]; the result is the
    presentation data as the block leaves it.  Only a list has [append]. *)
Definition normalize_slides (presentation_data : pyvalue) : outcome pyvalue :=
  (slides <- getitem presentation_data (lit "slides") ;;
   n <- py_len slides ;;
   if negb (n =? 6) then
     if n <? 6 then
       match slides with
       | VList l =>
           Returned (setitem presentation_data (lit "slides")
                             (VList (pad_slides l)))
       | _ => Raised (attribute_error (lit "object has no attribute 'append'"))
       end
     else
       (cut <- slice6 slides ;;
        Returned (setitem presentation_data (lit "slides") cut))
   else Returned presentation_data)%outcome.

(** The first chain on [slide_data\["type"\]]: the index of the layout. *)
Definition select_layout (ty : pyvalue) : nat :=
  if eq_str ty (lit "title_slide") then 0
  else if eq_str ty (lit "section_header") then 2
  else if eq_str ty (lit "bullet_points")
          || eq_str ty (lit "conclusion_slide") then 1
  else if eq_str ty (lit "content_slide") then 5
  else 1.

(** [slide_data.get(key, default)] *)
Definition get_default (slide_data : pyvalue) (key : pystr)
  (default : pyvalue) : outcome pyvalue :=
  match slide_data with
  | VDict kv => Returned (dict_get key default kv)
  | _ => Raised (attribute_error (lit "object has no attribute 'get'"))
  end.

Definition title_style (p : paragraph) : paragraph :=
  style_runs (fun f => set_color color_title (set_size 32 (set_bold f)))
             (with_alignment CENTER p).

Definition subtitle_style (p : paragraph) : paragraph :=
  style_runs (fun f => set_italic (set_size 24 f))
             (with_alignment CENTER p).

Definition bullet_paragraph (t : pystr) : paragraph :=
  style_runs (fun f => set_color color_text (set_size 20 f))
             (with_alignment LEFT (with_level 0 (with_text t new_paragraph))).

Definition body_paragraph (i : nat) (t : pystr) : paragraph :=
  let p := with_alignment LEFT (with_text t new_paragraph) in
  let p := if 0 <? i then with_space_before 12 p else p in
  style_runs (fun f => set_color color_text (set_size 20 f)) p.

Definition header_style (p : paragraph) : paragraph :=
  style_runs (fun f => set_color color_accent (set_bold (set_size 28 f)))
             (with_alignment CENTER p).

Definition conclusion_paragraph (t : pystr) : paragraph :=
  style_runs (fun f => set_color color_text (set_size 22 f))
             (with_alignment LEFT (with_text t new_paragraph)).

Definition spacer_paragraph : paragraph :=
  with_text [] (with_space_before 20 new_paragraph).

Definition takeaway_paragraph (t : pystr) : paragraph :=
  style_runs
    (fun f => set_color color_accent
                (set_italic (set_bold (set_size 24 f))))
    (with_alignment CENTER (with_text t new_paragraph)).

(** The body of the branch [slide_data\["type"\] == "bullet_points"]. *)
Definition bullet_points_rule (slide_data : pyvalue) (sl : slide)
  : outcome slide :=
  match s_body sl with
  | Some tf =>
      (let tf := clear tf in
       points <- getitem slide_data (lit "points") ;;
       items <- py_iter points ;;
       tf <- for_each
               (fun tf point =>
                  t <- as_text point ;;
                  Returned (add_paragraph tf (bullet_paragraph t)))
               items tf ;;
       Returned (with_body tf sl))%outcome
  | None => Returned sl
  end.

(** The second chain on [slide_data\["type"\]]: the content of the slide.
    It has no [else]. *)
Definition fill_content (ty : pyvalue) (slide_data : pyvalue) (sl : slide)
  : outcome slide :=
  (if eq_str ty (lit "title_slide") then
     match s_body sl with
     | Some _ =>
         content <- get_default slide_data (lit "content") (VStr []) ;;
         subtitle <- get_default slide_data (lit "subtitle") content ;;
         subtitle_text <- as_text subtitle ;;
         Returned (with_body (map subtitle_style (set_text subtitle_text)) sl)
     | None => Returned sl
     end
   else if eq_str ty (lit "bullet_points") then
     bullet_points_rule slide_data sl
   else if eq_str ty (lit "content_slide") then
     (paragraphs <- get_default slide_data (lit "paragraphs") (VList []) ;;
      items <- py_iter paragraphs ;;
      st <- for_each
              (fun (st : nat * text_frame) paragraph_text =>
                 t <- as_text paragraph_text ;;
                 Returned (S (fst st),
                           add_paragraph (snd st) (body_paragraph (fst st) t)))
              items (0, fresh_frame) ;;
      Returned (with_textbox (snd st) sl))
   else if eq_str ty (lit "section_header") then
     (has_content <- py_in (lit "content") slide_data ;;
      match has_content, s_body sl with
      | true, Some _ =>
          content <- getitem slide_data (lit "content") ;;
          t <- as_text content ;;
          Returned (with_body (map header_style (set_text t)) sl)
      | _, _ => Returned sl
      end)
   else if eq_str ty (lit "conclusion_slide") then
     match s_body sl with
     | Some tf =>
         content <- get_default slide_data (lit "content") (VStr []) ;;
         t <- as_text content ;;
         let tf := add_paragraph tf (conclusion_paragraph t) in
         has_takeaway <- py_in (lit "key_takeaway") slide_data ;;
         if (has_takeaway : bool) then
           (takeaway <- getitem slide_data (lit "key_takeaway") ;;
            let tf := add_paragraph tf spacer_paragraph in
            let tf := add_paragraph tf
                        (takeaway_paragraph
                           (lit "Key Takeaway: " ++ py_str takeaway)) in
            Returned (with_body tf sl))
         else Returned (with_body tf sl)
     | None => Returned sl
     end
   else Returned sl)%outcome.

(** One round of the loop [for index, slide_data in enumerate(...)]. *)
Definition render_slide (slide_data : pyvalue) : outcome slide :=
  (ty <- getitem slide_data (lit "type") ;;
   let sl := add_slide slide_layouts (select_layout ty) in
   sl <- match s_title sl with
         | Some _ =>
             title <- getitem slide_data (lit "title") ;;
             t <- as_text title ;;
             Returned (with_title (map title_style (set_text t)) sl)
         | None => Returned sl
         end ;;
   fill_content ty slide_data sl)%outcome.

Definition render_deck (slides : list pyvalue) : outcome (list slide) :=
  for_each (fun deck slide_data =>
              (sl <- render_slide slide_data ;; Returned (deck ++ [sl]))%outcome)
           slides [].

(** The call changes [presentation_data] in place, and the caller reads it
    afterwards: the changed data is returned next to the path. *)
Definition create_powerpoint (presentation_data : pyvalue)
  (output_path : pystr) : prog (pyvalue * pystr) :=
  presentation_data <~ lift (normalize_slides presentation_data) ;;
  deck <~ lift (slides <- getitem presentation_data (lit "slides") ;;
                items <- py_iter slides ;;
                render_deck items)%outcome ;;
  Do (SaveDeck output_path deck) (Ret (presentation_data, output_path)).

(** ** The request driver *)

Definition spaces : Re.regex := Re.Plus (Re.One Re.CSpace).
Definition word (s : String.string) : Re.regex := Re.Word (lit s).

(** The pattern of [process_ppt_request]:
    [(?:generate|create|make|prepare)(?:\s+a)?\s+]
    [(?:ppt|powerpoint|presentation|slides)(?:\s+on|about|for|covering)?]
    [\s+] and, as the one capturing group, a greedy repetition of [.] (no
    [re.DOTALL] here).  In the second optional group the alternation
    splits the whole group, so [\s+] belongs to [on] alone. *)
Definition topic_pattern : Re.regex :=
  Re.Seq (Re.Alt (word "generate")
            (Re.Alt (word "create") (Re.Alt (word "make") (word "prepare"))))
  (Re.Seq (Re.Opt (Re.Seq spaces (word "a")))
  (Re.Seq spaces
  (Re.Seq (Re.Alt (word "ppt")
             (Re.Alt (word "powerpoint")
                (Re.Alt (word "presentation") (word "slides"))))
  (Re.Seq (Re.Opt (Re.Alt (Re.Seq spaces (word "on"))
                     (Re.Alt (word "about")
                        (Re.Alt (word "for") (word "covering")))))
  (Re.Seq spaces
          (Re.Group (Re.Star (Re.One Re.CDot)))))))).

(** [topic_match.group(1) if topic_match else user_input]; [None] is a
    group that took no part in the match. *)
Definition extract_topic (user_input : pystr) : option pystr :=
  match Re.search topic_pattern (lower user_input) with
  | Some m => Re.group1 m
  | None => Some user_input
  end.

(** The message literals, as the file has them. *)
Definition msg_analyzing : pystr :=
  [63743; 252; 167; 238]%N
  ++ lit " Analyzing your request and planning the presentation structure...".
Definition msg_generating : pystr :=
  [63743; 252; 238; 209]%N
  ++ lit " Generating presentation content with exactly 6 slides...".
Definition msg_error : pystr :=
  [8218; 249; 229]%N ++ lit " Error generating presentation: ".
Definition msg_designing : pystr :=
  [63743; 252; 236; 228]%N
  ++ lit " Designing a visually balanced PowerPoint presentation...".
Definition msg_creating : pystr :=
  [8218; 250; 174]%N
  ++ lit " Creating a professionally styled PowerPoint presentation...".
Definition msg_structure : pystr :=
  [63743; 252; 236; 235]%N ++ lit " Presentation Structure".
Definition msg_download : pystr :=
  [63743; 252; 236; 209]%N ++ lit " Download Presentation".
Definition msg_ready (topic : pystr) : pystr :=
  [8218; 250; 214]%N ++ lit " Your 6-slide presentation on '" ++ topic
  ++ lit "' is ready for download! Each slide has been professionally designed with symmetrical content distribution.".

(** [for i, slide in enumerate(slides): st.write(...)], from index [i]. *)
Fixpoint write_slides (i : nat) (slides : list pyvalue) : prog unit :=
  match slides with
  | [] => Ret tt
  | slide :: rest =>
      title <~ lift (getitem slide (lit "title")) ;;
      ty <~ lift (getitem slide (lit "type")) ;;
      Do (Write (lit "**Slide " ++ str_of_nat (i + 1) ++ lit ":** "
                 ++ py_str title ++ lit " (" ++ py_str ty ++ lit ")"))
         (write_slides (S i) rest)
  end.

(** What follows the generator call when its result has no ["error"]. *)
Definition deliver (topic : pystr) (presentation_data : pyvalue)
  : prog pystr :=
  Do (Info msg_designing)
  (Do (Spinner msg_creating)
  (let output_file :=
     replace_char 32 (lit "_") topic ++ lit "_presentation.pptx" in
   made <~ create_powerpoint presentation_data output_file ;;
   let presentation_data := fst made in
   let pptx_path := snd made in
   Do (Subheader msg_structure)
   (title <~ lift (getitem presentation_data (lit "title")) ;;
    Do (Write (lit "**Title:** " ++ py_str title))
    (slides <~ lift (slides <- getitem presentation_data (lit "slides") ;;
                     py_iter slides)%outcome ;;
     write_slides 0 slides ;;;
     Do (ReadFile pptx_path)
     (Do (DownloadButton msg_download output_file
                         (lit "download_ppt_" ++ topic))
     (Do EmptyContainer
     (Ret (msg_ready topic)))))))).

Definition process_ppt_request (user_input : pystr) : prog pystr :=
  topic <~ match extract_topic user_input with
           | Some t => Ret t
           | None => Raise (attribute_error
                       (lit "'NoneType' object has no attribute 'strip'"))
           end ;;
  let topic := capitalize (strip topic) in
  Do NewContainer
  (Do (Info msg_analyzing)
  (Do (Spinner msg_generating)
  (presentation_data <~ generate_presentation_content topic default_model ;;
   failed <~ lift (py_in (lit "error") presentation_data) ;;
   if (failed : bool) then
     err <~ lift (getitem presentation_data (lit "error")) ;;
     Ret (msg_error ++ py_str err)
   else deliver topic presentation_data))).

End App.
End Streamlit1.

(* ================================================================== *)
(** * streamlit_multilingual_voice_input.py *)
(* ================================================================== *)

(** [extract_json], [generate_presentation_content] and [create_powerpoint]
    of this file are those of [streamlit1.py], character for character but
    for one more sentence in the generator's prompt; the classifier has a
    longer keyword list and lower-cases each keyword. *)
Module Multilingual.
Section App.
Context {RT : Runtime}.
Local Open Scope prog_scope.

Definition ppt_keywords : list pystr :=
  Streamlit1.ppt_keywords ++
  [ (* Hindi *)
    [2346; 2381; 2352; 2375; 2332; 2375; 2306; 2335; 2375; 2358; 2344];
    [2346; 2366; 2357; 2352; 2346; 2377; 2311; 2306; 2335];
    [2346; 2368; 2346; 2368; 2335; 2368];
    [2360; 2381; 2354; 2366; 2311; 2337];
    (* Bengali *)
    [2474; 2494; 2451; 2479; 2492; 2494; 2480; 32; 2474; 2479; 2492; 2503;
     2472; 2509; 2463];
    [2474; 2509; 2480; 2503; 2460; 2503; 2472; 2509; 2463; 2503; 2486; 2472];
    [2488; 2509; 2482; 2494; 2439; 2465];
    (* Tamil *)
    [2997; 3007; 2995; 2965; 3021; 2965; 2965; 3021; 2965; 3006; 2975; 3021;
     2970; 3007];
    [2986; 2997; 2992; 3021; 2986; 3006; 2991; 3007; 2979; 3021; 2975; 3021];
    [3000; 3021; 2994; 3016; 2975; 3009];
    (* Telugu *)
    [3114; 3149; 3120; 3100; 3142; 3074; 3103; 3143; 3127; 3112; 3149];
    [3114; 3125; 3120; 3149; 32; 3114; 3134; 3119; 3135; 3074; 3103; 3149];
    [3128; 3149; 3122; 3144; 3105; 3149] ]%N.

Definition classify_intent (query : pystr) (model : pystr) : prog pystr :=
  let query_lower := lower query in
  if existsb (fun keyword => str_in (lower keyword) query_lower) ppt_keywords
  then Ret ppt_generation
  else
    try_except
      (response <~ chat_completions_create model
                     [ MkMsg (lit "system") classifier_prompt;
                       MkMsg (lit "user") query ] ;;
       text <~ lift (first_content response) ;;
       let classification := lower (strip text) in
       if str_in (lit "ppt_generation") classification
       then Ret ppt_generation
       else Ret normal_query)
      (fun _ => Ret normal_query).

End App.
End Multilingual.

(* ================================================================== *)
(** * More string methods *)
(* ================================================================== *)

Module Text.

(** [s.split()]: the maximal runs of characters that are not white
    space, in order. *)
Fixpoint split_ws (s : pystr) : list pystr :=
  match s with
  | [] => []
  | c :: rest =>
      if isspace c then split_ws rest
      else
        match rest with
        | [] => [[c]]
        | d :: _ =>
            if isspace d then [c] :: split_ws rest
            else
              match split_ws rest with
              | token :: tokens => (c :: token) :: tokens
              | [] => [[c]]
              end
        end
  end.

(** [s.split(sep)] for a one-character [sep]: never an empty list. *)
Fixpoint split_on (sep : N) (s : pystr) : list pystr :=
  match s with
  | [] => [[]]
  | c :: rest =>
      if N.eqb c sep then [] :: split_on sep rest
      else
        match split_on sep rest with
        | part :: parts => (c :: part) :: parts
        | [] => [[c]]
        end
  end.

(** [l\[i\]] for an index that is not negative. *)
Definition item {A} (l : list A) (i : nat) : outcome A :=
  match nth_error l i with
  | Some x => Returned x
  | None => Raised (MkExn IndexError (lit "list index out of range"))
  end.

Definition one_of (chars : pystr) (c : N) : bool :=
  existsb (N.eqb c) chars.

Fixpoint lstrip_chars (chars : pystr) (s : pystr) : pystr :=
  match s with
  | [] => []
  | c :: rest => if one_of chars c then lstrip_chars chars rest else s
  end.

(** [s.strip(chars)] *)
Definition strip_chars (chars : pystr) (s : pystr) : pystr :=
  rev (lstrip_chars chars (rev (lstrip_chars chars s))).

End Text.

Import Text.

(* ================================================================== *)
(** * streamlit1.py: the chat query *)
(* ================================================================== *)

Module Streamlit1Chat.

(** [messages\[-1\]] is not the user's [query]: the test of the [if]
    after the copy, without its first disjunct. *)
Definition last_is_not (query : pystr) (messages : list message) : bool :=
  match rev messages with
  | [] => true
  | m :: _ =>
      negb (str_eqb (role m) (lit "user"))
      || negb (str_eqb (content m) query)
  end.

(** [st.session_state.messages] is the argument [history]: the dicts
    [main] appends to it, each with a role and a content, both text.  The
    function works on a copy.  It returns the content of the first
    choice as it is, which is text or [None]. *)
Definition process_chat_query (history : list message)
  (query model : pystr) : prog (option pystr) :=
  try_except
    (let messages := history in
     let messages :=
       if last_is_not query messages
       then messages ++ [MkMsg (lit "user") query]
       else messages in
     completion <~ chat_completions_create model messages ;;
     first <~ lift (item (choices completion) 0) ;;
     Ret (message_content first))%prog
    (fun e => Ret (Some (lit "Error generating response: " ++ exn_str e))).

End Streamlit1Chat.

(* ================================================================== *)
(** * streamlit_multilingual_voice_input.py: languages, chat, driver *)
(* ================================================================== *)

Module MultilingualApp.

(** What this file needs beyond [Runtime]: [c.isalpha()] and [c.upper()]
    for a one-character string, and the prompt of the language
    detector. *)
Class Unicode : Type := {
  isalpha : pystr -> bool;
  upper : pystr -> pystr;
  detector_prompt : pystr
}.

Record lang_info : Type := MkLang {
  code : pystr;
  tts_code : pystr;
  display : pystr
}.

Definition INDIAN_LANGUAGES : list (pystr * lang_info) :=
  [ (lit "English", MkLang (lit "en-IN") (lit "en") (lit "English"));
    (lit "Hindi",
     MkLang (lit "hi-IN") (lit "hi") [2361; 2367; 2306; 2342; 2368]%N);
    (lit "Bengali",
     MkLang (lit "bn-IN") (lit "bn") [2476; 2494; 2434; 2482; 2494]%N);
    (lit "Tamil",
     MkLang (lit "ta-IN") (lit "ta") [2980; 2990; 3007; 2996; 3021]%N);
    (lit "Telugu",
     MkLang (lit "te-IN") (lit "te")
            [3108; 3142; 3122; 3137; 3095; 3137]%N);
    (lit "Marathi",
     MkLang (lit "mr-IN") (lit "mr") [2350; 2352; 2366; 2336; 2368]%N);
    (lit "Gujarati",
     MkLang (lit "gu-IN") (lit "gu")
            [2711; 2753; 2716; 2736; 2750; 2724; 2752]%N);
    (lit "Kannada",
     MkLang (lit "kn-IN") (lit "kn") [3221; 3240; 3277; 3240; 3233]%N);
    (lit "Malayalam",
     MkLang (lit "ml-IN") (lit "ml")
            [3374; 3378; 3375; 3390; 3379; 3330]%N);
    (lit "Punjabi",
     MkLang (lit "pa-IN") (lit "pa")
            [2602; 2672; 2588; 2622; 2604; 2624]%N);
    (lit "Urdu", MkLang (lit "ur-IN") (lit "ur") [1575; 1585; 1583; 1608]%N) ].

(** The keys of the table, in its order. *)
Definition language_names : list pystr := map fst INDIAN_LANGUAGES.

(** [INDIAN_LANGUAGES\[name\]] *)
Fixpoint language_info (name : pystr) (table : list (pystr * lang_info))
  : outcome lang_info :=
  match table with
  | [] => Raised (key_error name)
  | (k, info) :: rest =>
      if str_eqb k name then Returned info else language_info name rest
  end.

(** [name in INDIAN_LANGUAGES] *)
Definition is_language (name : pystr) : bool :=
  existsb (fun k => str_eqb k name) language_names.

Section App.
Context {RT : Runtime} {UC : Unicode}.
Local Open Scope prog_scope.

(** ** Language detection *)

(** The characters [strip] is given: full stop, comma, colon, double
    quote and single quote. *)
Definition punctuation : pystr := lit ".,:" ++ [34%N] ++ lit "'".

(** The result is the language and, next to it, what the call shows on
    the page with [st.error]. *)
Definition detect_language (text model : pystr)
  : prog (pystr * list pystr) :=
  try_except
    (response <~ chat_completions_create model
                   [ MkMsg (lit "system") detector_prompt;
                     MkMsg (lit "user") text ] ;;
     answer <~ lift (first_content response) ;;
     let detected_language := strip answer in
     first <~ lift (item (split_ws detected_language) 0) ;;
     let detected_language := strip_chars punctuation first in
     if is_language detected_language
     then Ret (detected_language, [])
     else
       match find (fun lang =>
                     str_eqb (lower detected_language) (lower lang))
                  language_names with
       | Some lang => Ret (lang, [])
       | None => Ret (lit "English", [])
       end)
    (fun e =>
       Ret (lit "English", [lit "Language detection error: " ++ exn_str e])).

(** ** The chat query *)

(** A message of the history of this file: a role, a content and the
    language tag [main] adds. *)
Record tagged_message : Type := MkTagged {
  t_role : pystr;
  t_content : pystr;
  t_language : pystr
}.

Definition process_chat_query (history : list tagged_message)
  (query model : pystr) : prog (option pystr) :=
  try_except
    (let api_messages :=
       map (fun msg => MkMsg (t_role msg) (t_content msg)) history in
     let api_messages :=
       if Streamlit1Chat.last_is_not query api_messages
       then api_messages ++ [MkMsg (lit "user") query]
       else api_messages in
     completion <~ chat_completions_create model api_messages ;;
     first <~ lift (item (choices completion) 0) ;;
     Ret (message_content first))
    (fun e => Ret (Some (lit "Error generating response: " ++ exn_str e))).

(** ** The language selector of the sidebar *)

(** One entry of [language_options]: the display name, then the key in
    parentheses. *)
Definition language_option (entry : pystr * lang_info) : pystr :=
  display (snd entry) ++ lit " (" ++ fst entry ++ lit ")".

Definition language_options : list pystr :=
  map language_option INDIAN_LANGUAGES.

(** The second part of the text split at opening parentheses, and of
    that the first part of its split at closing parentheses. *)
Definition selected_language (selected_language_display : pystr)
  : outcome pystr :=
  (after <- item (split_on 40 selected_language_display) 1 ;;
   item (split_on 41 after) 0)%outcome.

(** ** The request driver *)

Definition msg_analyzing : pystr :=
  [129300%N]
  ++ lit " Analyzing your request and planning the presentation structure...".
Definition msg_generating : pystr :=
  [128260%N]
  ++ lit " Generating presentation content with exactly 6 slides...".
Definition msg_error : pystr :=
  [10060%N] ++ lit " Error generating presentation: ".
Definition msg_designing : pystr :=
  [128202%N]
  ++ lit " Designing a visually balanced PowerPoint presentation...".
Definition msg_creating : pystr :=
  [10024%N]
  ++ lit " Creating a professionally styled PowerPoint presentation...".
Definition msg_structure : pystr :=
  [128209%N] ++ lit " Presentation Structure".
Definition msg_download : pystr :=
  [128196%N] ++ lit " Download Presentation".
Definition msg_ready (topic : pystr) : pystr :=
  [9989%N] ++ lit " Your 6-slide presentation on '" ++ topic
  ++ lit "' is ready for download! Each slide has been professionally designed with symmetrical content distribution.".

(** [topic = topic.strip()], then the first character in upper case when
    it is a letter; an empty topic has no first character. *)
Definition format_topic (topic : pystr) : outcome pystr :=
  match strip topic with
  | [] => Raised (MkExn IndexError (lit "string index out of range"))
  | c :: rest =>
      Returned (if isalpha [c] then upper [c] ++ rest else c :: rest)
  end.

Definition deliver (topic : pystr) (presentation_data : pyvalue)
  : prog pystr :=
  Do (Info msg_designing)
  (Do (Spinner msg_creating)
  (let output_file :=
     replace_char 32 (lit "_") topic ++ lit "_presentation.pptx" in
   made <~ Streamlit1.create_powerpoint presentation_data output_file ;;
   let presentation_data := fst made in
   let pptx_path := snd made in
   Do (Subheader msg_structure)
   (title <~ lift (getitem presentation_data (lit "title")) ;;
    Do (Write (lit "**Title:** " ++ py_str title))
    (slides <~ lift (slides <- getitem presentation_data (lit "slides") ;;
                     py_iter slides)%outcome ;;
     Streamlit1.write_slides 0 slides ;;;
     Do (ReadFile pptx_path)
     (Do (DownloadButton msg_download output_file
                         (lit "download_ppt_" ++ topic))
     (Do EmptyContainer
     (Ret (msg_ready topic)))))))).

(** The pattern, [create_powerpoint] and the generator are those of
    [streamlit1.py]. *)
Definition process_ppt_request (user_input : pystr) : prog pystr :=
  topic <~ match Streamlit1.extract_topic user_input with
           | Some t => Ret t
           | None => Raise (attribute_error
                       (lit "'NoneType' object has no attribute 'strip'"))
           end ;;
  topic <~ lift (format_topic topic) ;;
  Do NewContainer
  (Do (Info msg_analyzing)
  (Do (Spinner msg_generating)
  (presentation_data <~
     Streamlit1.generate_presentation_content topic default_model ;;
   failed <~ lift (py_in (lit "error") presentation_data) ;;
   if (failed : bool) then
     err <~ lift (getitem presentation_data (lit "error")) ;;
     Ret (msg_error ++ py_str err)
   else deliver topic presentation_data))).

End App.
End MultilingualApp.

(* ================================================================== *)
(** * A concrete environment for the examples *)
(* ================================================================== *)

(** [str(v)] on the values whose text is short to write; the examples
    format strings only. *)
Definition simple_str (v : pyvalue) : pystr :=
  match v with
  | VStr s => s
  | VNone => lit "None"
  | VBool true => lit "True"
  | VBool false => lit "False"
  | VNum lexeme => lexeme
  | _ => lit "<collection>"
  end.

(** ASCII case mappings, the default template, and a parser given by the
    example at hand. *)
Definition ascii_runtime (loads : pystr -> outcome pyvalue) : Runtime :=
  {| lower := lower_ascii_only;
     capitalize := capitalize_ascii_only;
     json_loads := loads;
     py_str := simple_str;
     slide_layouts := default_layouts;
     classifier_prompt := lit "You are an intent classifier.";
     generator_prompt := lit "You are a presentation creation assistant." |}.

(** A parser that rejects everything. *)
Definition reject_all (s : pystr) : outcome pyvalue :=
  Raised (MkExn OtherException (lit "Expecting value")).

(** A service that is down. *)
Definition remote_down (rq : chat_request) : outcome response :=
  Raised (MkExn OtherException (lit "Connection error.")).

(** A service that answers every request with the text [t]. *)
Definition remote_says (t : pystr) (rq : chat_request) : outcome response :=
  Returned (MkResp [MkChoice (Some t)]).

(** The double quote. *)
Definition dq : pystr := [34%N].

(* ================================================================== *)
(** * Auxiliary definitions for the statements and proofs *)
(* ================================================================== *)

Import Streamlit1.

(** The rounds of a repetition, as a function of its own. *)
Section Rounds.
Context {R : Type} (r1 : Re.regex) (k : Re.cont R).

Fixpoint star_rounds (fuel : nat) (s : pystr) (g : option pystr)
  : option R :=
  match fuel with
  | O => k s g
  | S fuel' =>
      Re.orelse
        (Re.mt r1 s g
               (fun s' g' =>
                  if length s' <? length s then star_rounds fuel' s' g'
                  else None))
        (k s g)
  end.

End Rounds.

(** A greedy repetition of [.] under [re.DOTALL]: the rest of the pattern
    is tried on every suffix of the subject, the shortest first. *)
Fixpoint greedy {R} (k : Re.cont R) (g : option pystr) (s : pystr)
  : option R :=
  match s with
  | [] => k [] g
  | _ :: s' => Re.orelse (greedy k g s') (k s g)
  end.

(** What follows the last occurrence of [c] in [s]. *)
Fixpoint after_last (c : N) (s : pystr) : option pystr :=
  match s with
  | [] => None
  | x :: s' =>
      match after_last c s' with
      | Some t => Some t
      | None => if N.eqb x c then Some s' else None
      end
  end.

(** The rest of [json_pattern] after [.*]: a closing brace, then the end
    of the match. *)
Definition closing {R} (done : pystr -> option pystr -> R) : Re.cont R :=
  fun s g =>
    match s with
    | d :: rest => if N.eqb d 125 then Some (done rest g) else None
    | [] => None
    end.

(** The text [blah {"a":1} blah {"b":2} blah]. *)
Definition two_objects : pystr :=
  lit "blah {" ++ dq ++ lit "a" ++ dq ++ lit ":1} blah {"
  ++ dq ++ lit "b" ++ dq ++ lit ":2} blah".

(** The text [{"a":1} blah {"b":2}]. *)
Definition two_objects_span : pystr :=
  lit "{" ++ dq ++ lit "a" ++ dq ++ lit ":1} blah {"
  ++ dq ++ lit "b" ++ dq ++ lit ":2}".

(** The request the classifier of either file sends. *)
Definition classifier_request {RT : Runtime} (query model : pystr)
  : chat_request :=
  MkReq model [ MkMsg (lit "system") classifier_prompt;
                MkMsg (lit "user") query ].

(** The request the generator sends. *)
Definition generator_request {RT : Runtime} (prompt model : pystr)
  : chat_request :=
  MkReq model [ MkMsg (lit "system") generator_prompt;
                MkMsg (lit "user") prompt ].

(** The fourth Hindi keyword of the multilingual list. *)
Definition hindi_slide : pystr := [2360; 2381; 2354; 2366; 2311; 2337]%N.

(** The five slide types the renderer names. *)
Definition known_type (ty : pyvalue) : bool :=
  eq_str ty (lit "title_slide") || eq_str ty (lit "bullet_points")
  || eq_str ty (lit "section_header") || eq_str ty (lit "content_slide")
  || eq_str ty (lit "conclusion_slide").

(** A slide of a type the renderer does not name, with two points, and the
    same slide typed [bullet_points]. *)
Definition chart_slide : pyvalue :=
  VDict [ (lit "title", VStr (lit "Growth"));
          (lit "type", VStr (lit "chart"));
          (lit "points", VList [ VStr (lit "Up"); VStr (lit "Down") ]) ].

Definition chart_as_bullets : pyvalue :=
  setitem chart_slide (lit "type") (VStr (lit "bullet_points")).

(** The request of the end-to-end example of the specification. *)
Definition photosynthesis_request : pystr :=
  lit "create a ppt about photosynthesis".

(** What the normalisation leaves under ["slides"], for a list. *)
Definition six_slides (l : list pyvalue) : list pyvalue :=
  firstn 6 l ++ repeat filler_slide (6 - length l).


(** A deck of three slides, as the model might send it. *)
Definition short_deck : pyvalue :=
  VDict [ (lit "title", VStr (lit "Photosynthesis"));
          (lit "slides",
           VList [ VDict [ (lit "title", VStr (lit "Photosynthesis"));
                           (lit "type", VStr (lit "title_slide"));
                           (lit "subtitle", VStr (lit "How plants eat")) ];
                   VDict [ (lit "title", VStr (lit "Inputs"));
                           (lit "type", VStr (lit "bullet_points"));
                           (lit "points",
                            VList [ VStr (lit "Light"); VStr (lit "Water") ]) ];
                   VDict [ (lit "title", VStr (lit "Summary"));
                           (lit "type", VStr (lit "conclusion_slide"));
                           (lit "content", VStr (lit "Plants make sugar")) ] ]) ].

Definition short_deck_slides : list pyvalue :=
  match short_deck with
  | VDict [_; (_, VList l)] => l
  | _ => []
  end.

(** What the driver has done when the generator call returns. *)
Definition before_generation {RT : Runtime} (topic : pystr) : list event :=
  [ Effect NewContainer;
    Effect (Info msg_analyzing);
    Effect (Spinner msg_generating);
    RemoteCall (generator_request topic default_model) ].

(** A full presentation that also has an ["error"] field, and a parser
    that returns it. *)
Definition deck_with_error_field : pyvalue :=
  VDict [ (lit "title", VStr (lit "Error analysis"));
          (lit "error", VStr (lit "margin of error: 5%"));
          (lit "slides", VList short_deck_slides) ].

Definition loads_error_field (s : pystr) : outcome pyvalue :=
  Returned deck_with_error_field.

(** A content slide with two paragraphs. *)
Definition two_paragraph_slide : pyvalue :=
  VDict [ (lit "title", VStr (lit "Stages"));
          (lit "type", VStr (lit "content_slide"));
          (lit "paragraphs",
           VList [ VStr (lit "Light reactions");
                   VStr (lit "Dark reactions") ]) ].

(** The five words that decide the keyword test of [streamlit1.py]. *)
Definition base_keywords : list pystr :=
  [ lit "ppt"; lit "powerpoint"; lit "presentation"; lit "slide";
    lit "deck" ].

(** The four verbs the topic pattern starts with. *)
Definition topic_verbs : list pystr :=
  [ lit "generate"; lit "create"; lit "make"; lit "prepare" ].





(** A parser that finds an object with a title and nothing else. *)
Definition loads_title_only (s : pystr) : outcome pyvalue :=
  Returned (VDict [ (lit "title", VStr (lit "Osmosis")) ]).

(** A parser that finds the deck of three slides. *)
Definition loads_short_deck (s : pystr) : outcome pyvalue :=
  Returned short_deck.

(** ASCII letters only, for the examples of the multilingual file. *)
Definition ascii_unicode : MultilingualApp.Unicode :=
  {| MultilingualApp.isalpha :=
       fun s => forallb (fun c => ((65 <=? c) && (c <=? 90)
                                   || (97 <=? c) && (c <=? 122))%N) s
                && negb (match s with [] => true | _ => false end);
     MultilingualApp.upper := map ascii_upper;
     MultilingualApp.detector_prompt :=
       lit "You are a language detection expert." |}.

(** The messages [process_chat_query] sends for a history and a query. *)
Definition chat_messages (history : list message) (query : pystr)
  : list message :=
  if Streamlit1Chat.last_is_not query history
  then history ++ [MkMsg (lit "user") query]
  else history.

(** A message of the multilingual history without its language tag. *)
Definition untag (msg : MultilingualApp.tagged_message) : message :=
  MkMsg (MultilingualApp.t_role msg) (MultilingualApp.t_content msg).

(** The request the language detector sends. *)
Definition detector_request {UC : MultilingualApp.Unicode}
  (text model : pystr) : chat_request :=
  MkReq model [ MkMsg (lit "system") MultilingualApp.detector_prompt;
                MkMsg (lit "user") text ].

Definition all_space (s : pystr) : Prop := Forall (fun c => isspace c = true) s.

Definition all_punctuation (s : pystr) : Prop :=
  Forall (fun c => one_of MultilingualApp.punctuation c = true) s.

(** The rest of an answer after its first word: nothing, or something
    that starts with white space. *)
Definition word_ends (rest : pystr) : Prop :=
  rest = [] \/ exists d r, rest = d :: r /\ isspace d = true.

(* ================================================================== *)
(** * Properties *)
(* ================================================================== *)

Unset Implicit Arguments.

(** ** Strings and dictionaries *)

Lemma str_eqb_refl (s : pystr) : str_eqb s s = true.
Proof.
  induction s as [|c s IH]; simpl; [reflexivity|].
  now rewrite N.eqb_refl, IH.
Qed.

Lemma str_eqb_eq (a b : pystr) : str_eqb a b = true <-> a = b.
Proof.
  split; [|intros ->; apply str_eqb_refl].
  revert b; induction a as [|x a IH]; intros [|y b]; simpl;
    try discriminate; [reflexivity|].
  intros H. apply andb_true_iff in H as [Hx Hab].
  apply N.eqb_eq in Hx. apply IH in Hab. congruence.
Qed.

Lemma dict_lookup_set (key : pystr) (v : pyvalue) kv :
  dict_lookup key (dict_set key v kv) = Some v.
Proof.
  induction kv as [|[k w] kv IH]; simpl.
  - now rewrite str_eqb_refl.
  - destruct (str_eqb k key) eqn:E; simpl; rewrite E; [reflexivity|exact IH].
Qed.

Lemma getitem_dict (d : pyvalue) (key : pystr) (v : pyvalue) :
  getitem d key = Returned v ->
  exists kv, d = VDict kv /\ dict_lookup key kv = Some v.
Proof.
  destruct d; simpl; try discriminate.
  destruct (dict_lookup key entries) eqn:E; [|discriminate].
  intros [= ->]. eauto.
Qed.

Lemma getitem_setitem (d : pyvalue) (key : pystr) (v w : pyvalue) :
  getitem d key = Returned w ->
  getitem (setitem d key v) key = Returned v.
Proof.
  intros H. apply getitem_dict in H as (kv & -> & _).
  simpl. now rewrite dict_lookup_set.
Qed.

(** ** The slide count *)

Lemma pad_slides_spec (slides : list pyvalue) :
  pad_slides slides = slides ++ repeat filler_slide (6 - length slides).
Proof.
  funelim (pad_slides slides).
  - match goal with IH : pad_slides _ = _ ++ _ |- _ => rewrite IH end.
    rewrite length_app; cbn [length].
    replace (6 - length slides) with (S (6 - (length slides + 1))) by lia.
    cbn [repeat]. now rewrite <- app_assoc.
  - replace (6 - length slides) with 0 by lia. simpl. now rewrite app_nil_r.
Qed.

Lemma six_slides_length (l : list pyvalue) : length (six_slides l) = 6.
Proof.
  unfold six_slides. rewrite length_app, length_firstn, repeat_length. lia.
Qed.

Lemma normalize_slides_list (pd : pyvalue) (l : list pyvalue) :
  getitem pd (lit "slides") = Returned (VList l) ->
  exists pd',
    normalize_slides pd = Returned pd'
    /\ getitem pd' (lit "slides") = Returned (VList (six_slides l)).
Proof.
  intros H. unfold normalize_slides. rewrite H. cbn [obind py_len].
  destruct (length l =? 6) eqn:E6; cbn [negb].
  - apply Nat.eqb_eq in E6. exists pd. split; [reflexivity|].
    rewrite H. unfold six_slides. rewrite firstn_all2 by lia.
    replace (6 - length l) with 0 by lia. cbn [repeat]. now rewrite app_nil_r.
  - apply Nat.eqb_neq in E6.
    destruct (length l <? 6) eqn:Elt.
    + apply Nat.ltb_lt in Elt. eexists. split; [reflexivity|].
      rewrite getitem_setitem with (w := VList l) by exact H. rewrite pad_slides_spec.
      unfold six_slides. rewrite firstn_all2 by lia. reflexivity.
    + apply Nat.ltb_ge in Elt. cbn [slice6 obind]. eexists.
      split; [reflexivity|].
      rewrite getitem_setitem with (w := VList l) by exact H. unfold six_slides.
      replace (6 - length l) with 0 by lia. cbn [repeat].
      now rewrite app_nil_r.
Qed.

(** C1. Whatever the length of the list under ["slides"], the block at
    the start of [create_powerpoint] returns, and leaves a list of exactly
    six slides under ["slides"]. *)
Theorem normalized_has_six_slides (pd : pyvalue) (l : list pyvalue) :
  getitem pd (lit "slides") = Returned (VList l) ->
  exists pd' l',
    normalize_slides pd = Returned pd'
    /\ getitem pd' (lit "slides") = Returned (VList l')
    /\ length l' = 6.
Proof.
  intros H. destruct (normalize_slides_list pd l H) as (pd' & Hn & Hg).
  exists pd', (six_slides l). auto using six_slides_length.
Qed.

(** The lengths 0, 3, 6 and 10. *)
Example six_slides_on_lengths :
  map (fun n => length (pad_slides (repeat VNone n))) [0; 3; 5]
  = [6; 6; 6]
  /\ map (fun n => option_map (@length _)
                     (match normalize_slides
                              (VDict [(lit "slides",
                                       VList (repeat filler_slide n))]) with
                      | Returned (VDict [(_, VList l)]) => Some l
                      | _ => None
                      end))
         [0; 3; 6; 10]
     = [Some 6; Some 6; Some 6; Some 6].
Proof. split; reflexivity. Qed.

Lemma normalized_has_six_slides_witness :
  exists pd' l',
    normalize_slides short_deck = Returned pd'
    /\ getitem pd' (lit "slides") = Returned (VList l')
    /\ length l' = 6.
Proof.
  apply (normalized_has_six_slides short_deck short_deck_slides).
  reflexivity.
Defined.

(** C6. The normalisation keeps the retained slides where they were: the
    first [min (length l) 6] slides are those of the input at the same
    positions, a longer list is cut to its first six, and a shorter one
    only gets slides added after its own. *)
Theorem normalization_keeps_order (pd : pyvalue) (l : list pyvalue) :
  getitem pd (lit "slides") = Returned (VList l) ->
  exists pd' l',
    normalize_slides pd = Returned pd'
    /\ getitem pd' (lit "slides") = Returned (VList l')
    /\ (forall i, i < Nat.min (length l) 6 -> nth_error l' i = nth_error l i)
    /\ (6 <= length l -> l' = firstn 6 l)
    /\ (length l <= 6 -> l' = l ++ repeat filler_slide (6 - length l)).
Proof.
  intros H. destruct (normalize_slides_list pd l H) as (pd' & Hn & Hg).
  exists pd', (six_slides l). unfold six_slides. repeat split; auto.
  - intros i Hi.
    rewrite nth_error_app1 by (rewrite length_firstn; lia).
    rewrite nth_error_firstn.
    destruct (Nat.ltb_spec i 6); [reflexivity|lia].
  - intros Hlen. replace (6 - length l) with 0 by lia.
    cbn [repeat]. apply app_nil_r.
  - intros Hlen. now rewrite firstn_all2 by lia.
Qed.

Lemma normalization_keeps_order_witness :
  exists pd' l',
    normalize_slides short_deck = Returned pd'
    /\ getitem pd' (lit "slides") = Returned (VList l')
    /\ (forall i, i < Nat.min (length short_deck_slides) 6 ->
                  nth_error l' i = nth_error short_deck_slides i)
    /\ (6 <= length short_deck_slides -> l' = firstn 6 short_deck_slides)
    /\ (length short_deck_slides <= 6 ->
        l' = short_deck_slides
             ++ repeat filler_slide (6 - length short_deck_slides)).
Proof.
  apply (normalization_keeps_order short_deck short_deck_slides).
  reflexivity.
Defined.

(** ** The JSON extractor *)

Section Extractor.

Local Abbreviation lbrace := 123%N.
Local Abbreviation rbrace := 125%N.

Lemma mt_star {R} (r : Re.regex) (s : pystr) (g : option pystr)
  (k : Re.cont R) :
  Re.mt (Re.Star r) s g k = star_rounds r k (length s) s g.
Proof. reflexivity. Qed.

Lemma star_any_greedy {R} (k : Re.cont R) (fuel : nat) :
  forall (s : pystr) (g : option pystr),
    length s <= fuel ->
    star_rounds (Re.One Re.CAny) k fuel s g = greedy k g s.
Proof.
  induction fuel as [|fuel IH]; intros [|c s] g Hlen;
    cbn [star_rounds greedy Re.mt Re.cset_match Re.orelse length] in *;
    try reflexivity; try lia.
  replace (length s <? S (length s)) with true
    by (symmetry; apply Nat.ltb_lt; lia).
  rewrite IH by lia. reflexivity.
Qed.

Lemma greedy_closing {R} (done : pystr -> option pystr -> R)
  (g : option pystr) (s : pystr) :
  greedy (closing done) g s
  = option_map (fun rest => done rest g) (after_last rbrace s).
Proof.
  induction s as [|x s IH]; [reflexivity|].
  cbn [greedy after_last]. rewrite IH.
  destruct (after_last rbrace s); [reflexivity|].
  cbn [option_map Re.orelse closing]. now destruct (N.eqb x rbrace).
Qed.

(** An anchored match of [json_pattern]: an opening brace first, and the
    match ends with the last closing brace after it. *)
Lemma match_at_json (s : pystr) :
  Re.match_at json_pattern s
  = match s with
    | c :: s' =>
        if N.eqb c lbrace
        then option_map
               (fun rest =>
                  Re.MkMatch (firstn (length s - length rest) s) None)
               (after_last rbrace s')
        else None
    | [] => None
    end.
Proof.
  destruct s as [|c s']; [reflexivity|].
  change (Re.match_at json_pattern (c :: s'))
    with (if N.eqb c lbrace
          then Re.mt (Re.Star (Re.One Re.CAny)) s' None
                 (closing (fun rest g =>
                    Re.MkMatch
                      (firstn (length (c :: s') - length rest) (c :: s')) g))
          else None).
  destruct (N.eqb c lbrace); [|reflexivity].
  rewrite mt_star, star_any_greedy by lia.
  apply greedy_closing.
Qed.

Lemma after_last_absent (c : N) (s : pystr) :
  ~ In c s -> after_last c s = None.
Proof.
  induction s as [|x s IH]; [reflexivity|].
  intros Hn. cbn [after_last]. rewrite IH by (intros H; apply Hn; now right).
  destruct (N.eqb_spec x c) as [->|]; [|reflexivity].
  exfalso. apply Hn. now left.
Qed.

Lemma after_last_found (c : N) (mid post : pystr) :
  ~ In c post -> after_last c (mid ++ c :: post) = Some post.
Proof.
  intros Hn. induction mid as [|x mid IH].
  - cbn [app after_last]. rewrite after_last_absent by exact Hn.
    now rewrite N.eqb_refl.
  - cbn [app after_last]. now rewrite IH.
Qed.

Lemma after_last_shorter (c : N) (s t : pystr) :
  after_last c s = Some t -> length t < length s.
Proof.
  revert t. induction s as [|x s IH]; [discriminate|].
  intros t. cbn [after_last length].
  destruct (after_last c s) as [u|].
  - intros [= <-]. specialize (IH u eq_refl). lia.
  - destruct (N.eqb x c); [|discriminate]. intros [= <-]. lia.
Qed.

Lemma search_json_skip (pre s : pystr) :
  ~ In lbrace pre ->
  Re.search json_pattern (pre ++ s) = Re.search json_pattern s.
Proof.
  induction pre as [|x pre IH]; [reflexivity|].
  intros Hn. cbn [app Re.search]. rewrite match_at_json.
  destruct (N.eqb_spec x lbrace) as [->|].
  - exfalso. apply Hn. now left.
  - cbn [Re.orelse]. apply IH. intros H. apply Hn. now right.
Qed.

Lemma search_json_no_close (s : pystr) :
  ~ In rbrace s -> Re.search json_pattern s = None.
Proof.
  induction s as [|x s IH]; [reflexivity|].
  intros Hn. cbn [Re.search]. rewrite match_at_json.
  assert (Hs : ~ In rbrace s) by (intros H; apply Hn; now right).
  rewrite after_last_absent by exact Hs. cbn [option_map].
  rewrite IH by exact Hs. now destruct (N.eqb x lbrace).
Qed.

Lemma extract_json_span (pre mid post : pystr) :
  ~ In lbrace pre -> ~ In rbrace post ->
  extract_json (pre ++ lbrace :: mid ++ rbrace :: post)
  = Some (lbrace :: mid ++ [rbrace]).
Proof.
  intros Hpre Hpost. unfold extract_json.
  rewrite search_json_skip by exact Hpre.
  cbn [Re.search]. rewrite match_at_json, N.eqb_refl.
  rewrite after_last_found by exact Hpost.
  cbn [option_map Re.orelse Re.group0]. f_equal.
  replace (length (lbrace :: mid ++ rbrace :: post) - length post)
    with (length (lbrace :: mid ++ [rbrace]))
    by (cbn [length]; rewrite !length_app; cbn [length]; lia).
  replace (lbrace :: mid ++ rbrace :: post)
    with ((lbrace :: mid ++ [rbrace]) ++ post)
    by (cbn [app]; now rewrite <- app_assoc).
  rewrite firstn_app, Nat.sub_diag, firstn_all. cbn [firstn].
  apply app_nil_r.
Qed.

Lemma extract_json_no_open (text : pystr) :
  ~ In lbrace text -> extract_json text = None.
Proof.
  intros Hn. unfold extract_json.
  rewrite <- (app_nil_r text), search_json_skip by exact Hn.
  reflexivity.
Qed.

Lemma firstn_head (x : N) (text t : pystr) :
  length t < length text ->
  exists c rest,
    firstn (length (x :: text) - length t) (x :: text) = c :: rest.
Proof.
  intros Hlt.
  destruct (length (x :: text) - length t) as [|n] eqn:En.
  - cbn [length] in En. lia.
  - cbn [firstn]. do 2 eexists. reflexivity.
Qed.

(** What the extractor returns is never the empty string. *)
Lemma extract_json_nonempty (text js : pystr) :
  extract_json text = Some js -> exists c rest, js = c :: rest.
Proof.
  unfold extract_json. revert js. induction text as [|x text IH]; intros js.
  - discriminate.
  - cbn [Re.search]. rewrite match_at_json.
    destruct (N.eqb x lbrace); [|apply IH].
    destruct (after_last rbrace text) as [t|] eqn:E; [|apply IH].
    cbn [option_map Re.orelse Re.group0]. intros [= <-].
    apply firstn_head. eapply after_last_shorter, E.
Qed.

End Extractor.

(** C4. [extract_json] returns the widest brace-delimited span: in a text
    that has a closing brace after its first opening brace, the part from
    the first opening brace to the last closing brace, both included; a
    text without an opening brace gives [None]; and the text with the two
    objects gives the span over both. *)
Theorem extract_json_widest_span :
  (forall pre mid post : pystr,
      ~ In 123%N pre -> ~ In 125%N post ->
      extract_json (pre ++ 123%N :: mid ++ 125%N :: post)
      = Some (123%N :: mid ++ [125%N]))
  /\ (forall text : pystr, ~ In 123%N text -> extract_json text = None)
  /\ extract_json two_objects = Some two_objects_span.
Proof.
  split; [exact extract_json_span|].
  split; [exact extract_json_no_open|].
  vm_compute. reflexivity.
Qed.

Lemma extract_json_widest_span_witness :
  extract_json (lit "Sure: " ++ 123%N :: lit "}{" ++ 125%N :: lit " done")
  = Some (123%N :: lit "}{" ++ [125%N])
  /\ extract_json (lit "no json here") = None.
Proof.
  split.
  - apply (proj1 extract_json_widest_span (lit "Sure: ") (lit "}{")
                 (lit " done")); vm_compute; intuition discriminate.
  - apply (proj1 (proj2 extract_json_widest_span) (lit "no json here")).
    vm_compute; intuition discriminate.
Defined.

(** C9. A text whose first opening brace has no closing brace after it
    gives [None], although an opening brace is there; so does ["{abc"]. *)
Theorem extract_json_unclosed (pre post : pystr) :
  ~ In 123%N pre -> ~ In 125%N post ->
  extract_json (pre ++ 123%N :: post) = None.
Proof.
  intros Hpre Hpost. unfold extract_json.
  rewrite search_json_skip by exact Hpre.
  rewrite search_json_no_close; [reflexivity|].
  intros [H|H]; [discriminate|auto].
Qed.

Lemma extract_json_unclosed_witness : extract_json (lit "{abc") = None.
Proof.
  apply (extract_json_unclosed [] (lit "abc")); vm_compute;
    intuition discriminate.
Defined.

(** ** The intent classifier *)

Section Classifier.
Context {RT : Runtime}.

Lemma keyword_hit (query model keyword : pystr) :
  In keyword Streamlit1.ppt_keywords ->
  str_in keyword (lower query) = true ->
  Streamlit1.classify_intent query model = Ret ppt_generation.
Proof.
  intros Hin Hsub. unfold Streamlit1.classify_intent.
  replace (existsb _ Streamlit1.ppt_keywords) with true; [reflexivity|].
  symmetry. apply existsb_exists. eauto.
Qed.

Lemma keyword_hit_multilingual (query model keyword : pystr) :
  In keyword Multilingual.ppt_keywords ->
  lower keyword = keyword ->
  str_in keyword (lower query) = true ->
  Multilingual.classify_intent query model = Ret ppt_generation.
Proof.
  intros Hin Hlow Hsub. unfold Multilingual.classify_intent.
  replace (existsb _ Multilingual.ppt_keywords) with true; [reflexivity|].
  symmetry. apply existsb_exists. exists keyword. now rewrite Hlow.
Qed.

(** C2. A query whose lower-cased form contains a trigger keyword is
    classified as ["ppt_generation"] by a program that is a bare return:
    run against any remote service, it leaves no event behind, so no
    chat-completion call is made.  This holds for the keyword list of
    [streamlit1.py], and for the longer list of the multilingual file,
    where the keyword is lower-cased before the test: the keywords are
    written in lower case or in scripts without case, which is the
    premise [lower keyword = keyword]. *)
Theorem keyword_fast_path (query model keyword : pystr)
  (remote : chat_request -> outcome response) :
  str_in keyword (lower query) = true ->
  (In keyword Streamlit1.ppt_keywords ->
   Streamlit1.classify_intent query model = Ret ppt_generation
   /\ run remote (Streamlit1.classify_intent query model)
      = (Returned ppt_generation, []))
  /\ (In keyword Multilingual.ppt_keywords ->
      lower keyword = keyword ->
      Multilingual.classify_intent query model = Ret ppt_generation
      /\ run remote (Multilingual.classify_intent query model)
         = (Returned ppt_generation, [])).
Proof.
  intros Hsub. split.
  - intros Hin. rewrite (keyword_hit query model keyword Hin Hsub). now split.
  - intros Hin Hlow.
    rewrite (keyword_hit_multilingual query model keyword Hin Hlow Hsub).
    now split.
Qed.

(** C3. Without a keyword match the classifier makes its one call, and
    whatever comes of it, it returns and does not raise: an exception of
    the call, or a response without a first choice or without text, gives
    ["normal_query"]; a response with text gives ["ppt_generation"] when
    the stripped, lower-cased text contains [ppt_generation], and
    ["normal_query"] when it does not. *)
Theorem classify_fallback (query model : pystr)
  (remote : chat_request -> outcome response) :
  existsb (fun keyword => str_in keyword (lower query))
          Streamlit1.ppt_keywords = false ->
  let rq := classifier_request query model in
  let result := run remote (Streamlit1.classify_intent query model) in
  (forall e, remote rq = Raised e ->
             result = (Returned normal_query, [RemoteCall rq]))
  /\ (forall r e, remote rq = Returned r -> first_content r = Raised e ->
                  result = (Returned normal_query, [RemoteCall rq]))
  /\ (forall r text,
        remote rq = Returned r -> first_content r = Returned text ->
        result
        = (Returned (if str_in (lit "ppt_generation") (lower (strip text))
                     then ppt_generation else normal_query),
           [RemoteCall rq]))
  /\ (fst result = Returned ppt_generation
      \/ fst result = Returned normal_query).
Proof.
  intros Hmiss rq result. subst result.
  unfold Streamlit1.classify_intent. rewrite Hmiss.
  unfold chat_completions_create. fold (classifier_request query model).
  fold rq. cbn [bind try_except run].
  repeat split.
  - intros e He. rewrite He. reflexivity.
  - intros r e Hr He. rewrite Hr. cbn [lift bind]. rewrite He. reflexivity.
  - intros r text Hr Ht. rewrite Hr. cbn [lift bind]. rewrite Ht.
    cbn [lift bind].
    now destruct (str_in (lit "ppt_generation") (lower (strip text))).
  - destruct (remote rq) as [r|e]; cbn [lift bind]; [|now right].
    destruct (first_content r) as [text|e]; cbn [lift bind]; [|now right].
    destruct (str_in (lit "ppt_generation") (lower (strip text)));
      [now left|now right].
Qed.

End Classifier.

Ltac in_list := cbn; repeat (try (left; reflexivity); right).

Lemma keyword_fast_path_witness :
  run remote_down
      (@Streamlit1.classify_intent (ascii_runtime reject_all)
         (lit "Make SLIDES on cells") default_model)
  = (Returned ppt_generation, [])
  /\ run remote_down
         (@Multilingual.classify_intent (ascii_runtime reject_all)
            (lit "DNA " ++ hindi_slide) default_model)
     = (Returned ppt_generation, []).
Proof.
  split.
  - refine (proj2 (proj1 (@keyword_fast_path (ascii_runtime reject_all)
                            (lit "Make SLIDES on cells") default_model
                            (lit "slides") remote_down _) _));
      [reflexivity|in_list].
  - refine (proj2 (proj2 (@keyword_fast_path (ascii_runtime reject_all)
                            (lit "DNA " ++ hindi_slide) default_model
                            hindi_slide remote_down _) _ _));
      [reflexivity|in_list|reflexivity].
Defined.

Lemma classify_fallback_witness :
  run remote_down
      (@Streamlit1.classify_intent (ascii_runtime reject_all)
         (lit "what is osmosis") default_model)
  = (Returned normal_query,
     [RemoteCall (@classifier_request (ascii_runtime reject_all)
                    (lit "what is osmosis") default_model)]).
Proof.
  apply (@classify_fallback (ascii_runtime reject_all)
           (lit "what is osmosis") default_model remote_down eq_refl)
    with (e := MkExn OtherException (lit "Connection error.")).
  reflexivity.
Defined.

(** ** The content generator *)

Section Generator.
Context {RT : Runtime}.

(** The generator makes its one call and returns, whatever the service
    and the parser do. *)
Lemma generator_always_returns (prompt model : pystr)
  (remote : chat_request -> outcome response) :
  exists v,
    run remote (generate_presentation_content prompt model)
    = (Returned v, [RemoteCall (generator_request prompt model)]).
Proof.
  unfold generate_presentation_content, chat_completions_create.
  fold (generator_request prompt model).
  cbn [bind try_except run].
  destruct (remote (generator_request prompt model)) as [r|e];
    cbn [lift bind try_except run]; [|eexists; reflexivity].
  destruct (first_content r) as [text|e]; cbn [lift bind try_except run];
    [|eexists; reflexivity].
  destruct (extract_json (strip text)) as [[|c js]|];
    cbn [lift bind try_except run]; try (eexists; reflexivity).
  destruct (json_loads (c :: js)); cbn [lift try_except run];
    eexists; reflexivity.
Qed.

(** C5. The generator returns a dict with the single key ["error"] and
    does not raise: with the no-JSON message when the extractor finds
    nothing in the stripped response text, and with the text of the
    exception when the call raises, when the response has no first choice
    or no text, or when the parser raises. *)
Theorem generator_errors_are_values (prompt model : pystr)
  (remote : chat_request -> outcome response) :
  let rq := generator_request prompt model in
  let result := run remote (generate_presentation_content prompt model) in
  (forall r text,
      remote rq = Returned r -> first_content r = Returned text ->
      extract_json (strip text) = None ->
      result = (Returned (error_dict (lit "No valid JSON found.")),
                [RemoteCall rq]))
  /\ (forall e, remote rq = Raised e ->
                result = (Returned (error_dict (exn_str e)), [RemoteCall rq]))
  /\ (forall r e,
        remote rq = Returned r -> first_content r = Raised e ->
        result = (Returned (error_dict (exn_str e)), [RemoteCall rq]))
  /\ (forall r text js e,
        remote rq = Returned r -> first_content r = Returned text ->
        extract_json (strip text) = Some js -> json_loads js = Raised e ->
        result = (Returned (error_dict (exn_str e)), [RemoteCall rq]))
  /\ (exists v, result = (Returned v, [RemoteCall rq])).
Proof.
  intros rq result. subst result.
  unfold generate_presentation_content, chat_completions_create.
  fold (generator_request prompt model). fold rq.
  cbn [bind try_except run].
  repeat split.
  - intros r text Hr Ht Hj. rewrite Hr. cbn [lift bind]. rewrite Ht.
    cbn [lift bind]. rewrite Hj. reflexivity.
  - intros e He. rewrite He. reflexivity.
  - intros r e Hr He. rewrite Hr. cbn [lift bind]. rewrite He. reflexivity.
  - intros r text js e Hr Ht Hj He. rewrite Hr. cbn [lift bind]. rewrite Ht.
    cbn [lift bind]. rewrite Hj.
    destruct (extract_json_nonempty _ _ Hj) as (c & rest & ->).
    rewrite He. reflexivity.
  - destruct (generator_always_returns prompt model remote) as (v & Hv).
    unfold generate_presentation_content, chat_completions_create in Hv.
    fold (generator_request prompt model) in Hv. fold rq in Hv.
    cbn [bind try_except run] in Hv. eauto.
Qed.

End Generator.

Lemma generator_errors_are_values_witness :
  run (remote_says (lit "I cannot help with that."))
      (@generate_presentation_content (ascii_runtime reject_all)
         (lit "Osmosis") default_model)
  = (Returned (error_dict (lit "No valid JSON found.")),
     [RemoteCall (@generator_request (ascii_runtime reject_all)
                    (lit "Osmosis") default_model)]).
Proof.
  apply (proj1 (@generator_errors_are_values (ascii_runtime reject_all)
                  (lit "Osmosis") default_model
                  (remote_says (lit "I cannot help with that."))))
    with (r := MkResp [MkChoice (Some (lit "I cannot help with that."))])
         (text := lit "I cannot help with that.");
    reflexivity.
Defined.

(** ** The renderer *)

Section Renderer.
Context {RT : Runtime}.

Lemma unknown_type_tests (ty : pyvalue) :
  known_type ty = false ->
  eq_str ty (lit "title_slide") = false
  /\ eq_str ty (lit "bullet_points") = false
  /\ eq_str ty (lit "section_header") = false
  /\ eq_str ty (lit "content_slide") = false
  /\ eq_str ty (lit "conclusion_slide") = false.
Proof.
  unfold known_type. intros H.
  repeat (apply orb_false_iff in H; destruct H as [H ?]). auto.
Qed.

(** C7, as the code has it. A slide whose type is none of the five gets
    the layout of a [bullet_points] slide (Title and Content) and, where
    that layout has a title shape, the styled title; the content chain
    has no branch for it, so whatever the slide it is given, it returns
    it as it is: no paragraph is made of the points. *)
Theorem unknown_type_gets_title_only (slide_data ty : pyvalue) :
  getitem slide_data (lit "type") = Returned ty ->
  known_type ty = false ->
  select_layout ty = select_layout (VStr (lit "bullet_points"))
  /\ (forall sl, fill_content ty slide_data sl = Returned sl)
  /\ render_slide slide_data
     = let sl := add_slide slide_layouts 1 in
       match s_title sl with
       | Some _ =>
           (title <- getitem slide_data (lit "title") ;;
            t <- as_text title ;;
            Returned (with_title (map title_style (set_text t)) sl))%outcome
       | None => Returned sl
       end.
Proof.
  intros Hty Hunk.
  destruct (unknown_type_tests ty Hunk) as (H1 & H2 & H3 & H4 & H5).
  assert (Hlay : select_layout ty = 1).
  { unfold select_layout. now rewrite H1, H2, H3, H4, H5. }
  assert (Hfill : forall sl, fill_content ty slide_data sl = Returned sl).
  { intros sl. unfold fill_content. now rewrite H1, H2, H3, H4, H5. }
  repeat split; [exact Hlay|exact Hfill|].
  unfold render_slide. rewrite Hty. cbn [obind]. rewrite Hlay.
  cbv zeta. destruct (s_title (add_slide slide_layouts 1)) as [tf|];
    [|apply Hfill].
  destruct (getitem slide_data (lit "title")) as [title|e]; [|reflexivity].
  cbn [obind]. destruct (as_text title) as [t|e]; [|reflexivity].
  cbn [obind]. apply Hfill.
Qed.

End Renderer.

Lemma unknown_type_gets_title_only_witness :
  @render_slide (ascii_runtime reject_all) chart_slide
  = Returned
      (with_title (map title_style (set_text (lit "Growth")))
                  (add_slide default_layouts 1)).
Proof.
  exact (proj2 (proj2 (@unknown_type_gets_title_only
                         (ascii_runtime reject_all) chart_slide
                         (VStr (lit "chart")) eq_refl eq_refl))).
Defined.

(** C7, as stated, fails: the slide typed [chart] keeps the untouched
    placeholder of its layout, while the same slide typed [bullet_points]
    gets one paragraph a point. *)
Lemma unknown_type_not_bulleted :
  getitem chart_slide (lit "type") = Returned (VStr (lit "chart"))
  /\ known_type (VStr (lit "chart")) = false
  /\ (exists sl,
        @render_slide (ascii_runtime reject_all) chart_slide = Returned sl
        /\ s_body sl = Some fresh_frame)
  /\ (exists sl,
        @render_slide (ascii_runtime reject_all) chart_as_bullets
        = Returned sl
        /\ s_body sl = Some [ new_paragraph;
                              bullet_paragraph (lit "Up");
                              bullet_paragraph (lit "Down") ])
  /\ @render_slide (ascii_runtime reject_all) chart_slide
     <> @render_slide (ascii_runtime reject_all) chart_as_bullets.
Proof.
  split; [reflexivity|]. split; [reflexivity|].
  split; [eexists; split; reflexivity|].
  split; [eexists; split; reflexivity|].
  vm_compute. discriminate.
Qed.

(** ** The request driver *)

Section Driver.
Context {RT : Runtime}.

(** C8, at its input. On ["create a ppt about photosynthesis"] (already in
    lower case) the pattern leaves the word [about] in the captured topic:
    the optional group cannot take it, since the space before it belongs
    to no alternative but [on]. *)
Theorem topic_keeps_about :
  lower photosynthesis_request = photosynthesis_request ->
  extract_topic photosynthesis_request = Some (lit "about photosynthesis")
  /\ extract_topic photosynthesis_request <> Some (lit "photosynthesis").
Proof.
  intros Hlow. unfold extract_topic. rewrite Hlow.
  split; [vm_compute; reflexivity|vm_compute; discriminate].
Qed.

(** With [on] in place of [about] the topic comes out bare. *)
Lemma topic_after_on :
  lower (lit "create a ppt on photosynthesis")
  = lit "create a ppt on photosynthesis" ->
  extract_topic (lit "create a ppt on photosynthesis")
  = Some (lit "photosynthesis").
Proof.
  intros Hlow. unfold extract_topic. rewrite Hlow. vm_compute. reflexivity.
Qed.

End Driver.

Lemma topic_keeps_about_witness :
  @extract_topic (ascii_runtime reject_all) photosynthesis_request
  = Some (lit "about photosynthesis")
  /\ @extract_topic (ascii_runtime reject_all) photosynthesis_request
     <> Some (lit "photosynthesis").
Proof.
  apply (@topic_keeps_about (ascii_runtime reject_all)). reflexivity.
Defined.

(** ** Running programs *)

Lemma run_bind {A B} (remote : chat_request -> outcome response)
  (m : prog A) (f : A -> prog B) :
  run remote (bind m f)
  = match run remote m with
    | (Returned a, t) => let (r, t') := run remote (f a) in (r, t ++ t')
    | (Raised e, t) => (Raised e, t)
    end.
Proof.
  induction m as [a|e|rq k IH|e k IH]; cbn [bind run].
  - now destruct (run remote (f a)).
  - reflexivity.
  - rewrite IH. destruct (run remote (k (remote rq))) as [[a|e] t].
    + now destruct (run remote (f a)).
    + reflexivity.
  - rewrite IH. destruct (run remote k) as [[a|e'] t].
    + now destruct (run remote (f a)).
    + reflexivity.
Qed.

(** ** The topic pattern always captures *)

Lemma star_rounds_from_cont {R} (r : Re.regex) (k : Re.cont R)
  (IHr : forall s g (k' : Re.cont R) m,
      Re.mt r s g k' = Some m -> exists s' g', k' s' g' = Some m)
  (fuel : nat) :
  forall s g m,
    star_rounds r k fuel s g = Some m -> exists s' g', k s' g' = Some m.
Proof.
  induction fuel as [|fuel IH]; intros s g m; cbn [star_rounds].
  - eauto.
  - destruct (Re.mt r s g _) as [x|] eqn:E; cbn [Re.orelse]; [|eauto].
    intros [= ->]. apply IHr in E as (s' & g' & E).
    destruct (length s' <? length s); [eauto|discriminate].
Qed.

(** A match is always the answer of the continuation. *)
Lemma mt_from_cont {R} (r : Re.regex) :
  forall s g (k : Re.cont R) m,
    Re.mt r s g k = Some m -> exists s' g', k s' g' = Some m.
Proof.
  induction r as [|cs|r1 IH1 r2 IH2|r1 IH1 r2 IH2|r1 IH1|r1 IH1|r1 IH1];
    intros s g k m.
  - cbn [Re.mt]. eauto.
  - cbn [Re.mt]. destruct s as [|c s]; [discriminate|].
    destruct (Re.cset_match cs c); [eauto|discriminate].
  - cbn [Re.mt]. intros H. apply IH1 in H as (s' & g' & H). eauto.
  - cbn [Re.mt]. destruct (Re.mt r1 s g k) as [x|] eqn:E; cbn [Re.orelse].
    + intros [= ->]. eauto.
    + eauto.
  - cbn [Re.mt]. destruct (Re.mt r1 s g k) as [x|] eqn:E; cbn [Re.orelse].
    + intros [= ->]. eauto.
    + eauto.
  - rewrite mt_star. apply star_rounds_from_cont. exact IH1.
  - cbn [Re.mt]. intros H. apply IH1 in H as (s' & g' & H). eauto.
Qed.

Lemma mt_seq_from_cont {R} (a b : Re.regex) s g (k : Re.cont R) m :
  Re.mt (Re.Seq a b) s g k = Some m ->
  exists s' g', Re.mt b s' g' k = Some m.
Proof.
  change (Re.mt (Re.Seq a b) s g k)
    with (Re.mt a s g (fun s' g' => Re.mt b s' g' k)).
  apply mt_from_cont.
Qed.

Lemma mt_group_captures {R} (r : Re.regex) s g (k : Re.cont R) m :
  Re.mt (Re.Group r) s g k = Some m ->
  exists s' t, k s' (Some t) = Some m.
Proof.
  change (Re.mt (Re.Group r) s g k)
    with (Re.mt r s g
            (fun s' _ => k s' (Some (firstn (length s - length s') s)))).
  intros H. apply mt_from_cont in H as (s' & _ & H). eauto.
Qed.

Lemma match_at_topic_captures (s : pystr) (m : Re.match_obj) :
  Re.match_at topic_pattern s = Some m -> exists t, Re.group1 m = Some t.
Proof.
  unfold Re.match_at, topic_pattern. intros H.
  do 6 (apply mt_seq_from_cont in H as (? & ? & H)).
  apply mt_group_captures in H as (s' & t & [= <-]).
  cbn [Re.group1]. eauto.
Qed.

Lemma search_topic_captures (s : pystr) (m : Re.match_obj) :
  Re.search topic_pattern s = Some m -> exists t, Re.group1 m = Some t.
Proof.
  induction s as [|c s IH]; cbn [Re.search].
  - destruct (Re.match_at topic_pattern []) eqn:E; cbn [Re.orelse];
      [|discriminate].
    intros [= ->]. eapply match_at_topic_captures, E.
  - destruct (Re.match_at topic_pattern (c :: s)) eqn:E; cbn [Re.orelse];
      [|exact IH].
    intros [= ->]. eapply match_at_topic_captures, E.
Qed.

(** The topic extraction never ends without a topic. *)
Lemma extract_topic_total {RT : Runtime} (user_input : pystr) :
  exists t, extract_topic user_input = Some t.
Proof.
  unfold extract_topic.
  destruct (Re.search topic_pattern (lower user_input)) as [m|] eqn:E;
    [|eauto].
  eapply search_topic_captures, E.
Qed.

(** ** Failure is the key ["error"] *)

Section Failure.
Context {RT : Runtime}.

(** C10. When the generator returns a dict, the driver goes by the key
    ["error"] alone.  With the key, whatever else the dict holds, the
    request ends in the error message made of the value of the key, and
    the run stops after the generator call: nothing is rendered, saved,
    read back or offered for download.  Without the key the run goes on
    with the delivery of the presentation. *)
Theorem error_key_decides_failure (user_input topic0 : pystr)
  (remote : chat_request -> outcome response)
  (kv : list (pystr * pyvalue)) :
  extract_topic user_input = Some topic0 ->
  let topic := capitalize (strip topic0) in
  fst (run remote (generate_presentation_content topic default_model))
  = Returned (VDict kv) ->
  (has_key (lit "error") kv = true ->
   exists err,
     dict_lookup (lit "error") kv = Some err
     /\ run remote (process_ppt_request user_input)
        = (Returned (msg_error ++ py_str err), before_generation topic)
     /\ forallb (fun ev => negb (is_artifact ev))
                (snd (run remote (process_ppt_request user_input))) = true)
  /\ (has_key (lit "error") kv = false ->
      run remote (process_ppt_request user_input)
      = let (r, t) := run remote (deliver topic (VDict kv)) in
        (r, before_generation topic ++ t)).
Proof.
  intros Htopic topic Hgen.
  destruct (generator_always_returns topic default_model remote)
    as (v & Hrun).
  rewrite Hrun in Hgen. cbn [fst] in Hgen. injection Hgen as ->.
  assert (Hstep : forall k : pyvalue -> prog pystr,
             run remote
                 (presentation_data <~ generate_presentation_content
                                         topic default_model ;;
                  k presentation_data)%prog
             = let (r, t) := run remote (k (VDict kv)) in
               (r, RemoteCall (generator_request topic default_model) :: t)).
  { intros k. rewrite run_bind, Hrun.
    now destruct (run remote (k (VDict kv))). }
  unfold process_ppt_request. rewrite Htopic. cbn [bind run]. fold topic.
  rewrite Hstep. cbn [py_in lift bind].
  split; intros Hkey; rewrite Hkey.
  - unfold has_key in Hkey. cbn [getitem].
    destruct (dict_lookup (lit "error") kv) as [err|]; [|discriminate].
    exists err. cbn [lift bind run snd]. repeat split.
  - destruct (run remote (deliver topic (VDict kv))) as [r t]. reflexivity.
Qed.

End Failure.

Lemma error_key_decides_failure_witness :
  exists err,
    dict_lookup (lit "error")
      [ (lit "title", VStr (lit "Error analysis"));
        (lit "error", VStr (lit "margin of error: 5%"));
        (lit "slides", VList short_deck_slides) ] = Some err
    /\ run (remote_says (lit "{}"))
           (@process_ppt_request (ascii_runtime loads_error_field)
              (lit "create a ppt on error analysis"))
       = (Returned (msg_error ++ simple_str err),
          @before_generation (ascii_runtime loads_error_field)
            (lit "Error analysis"))
    /\ forallb (fun ev => negb (is_artifact ev))
         (snd (run (remote_says (lit "{}"))
                   (@process_ppt_request (ascii_runtime loads_error_field)
                      (lit "create a ppt on error analysis")))) = true.
Proof.
  apply (proj1 (@error_key_decides_failure
                  (ascii_runtime loads_error_field)
                  (lit "create a ppt on error analysis")
                  (lit "error analysis")
                  (remote_says (lit "{}")) _ eq_refl eq_refl)).
  reflexivity.
Defined.

(* ================================================================== *)
(** * Further properties of the two files *)
(* ================================================================== *)

(** ** More on the JSON extractor *)

Lemma after_last_none (c : N) (s : pystr) :
  after_last c s = None -> ~ In c s.
Proof.
  induction s as [|x s IH]; [intros _ []|].
  cbn [after_last]. destruct (after_last c s); [discriminate|].
  destruct (N.eqb_spec x c); [discriminate|].
  intros _ [H|H]; [congruence|now apply IH].
Qed.

Lemma after_last_split (c : N) (s t : pystr) :
  after_last c s = Some t ->
  exists mid, s = mid ++ c :: t /\ ~ In c t.
Proof.
  revert t. induction s as [|x s IH]; [discriminate|].
  intros t. cbn [after_last].
  destruct (after_last c s) as [u|] eqn:E.
  - intros [= <-]. destruct (IH u eq_refl) as (mid & -> & Hn).
    exists (x :: mid). now split.
  - destruct (N.eqb_spec x c) as [->|]; [|discriminate].
    intros [= <-]. exists []. split; [reflexivity|].
    now apply after_last_none.
Qed.

Lemma firstn_span (x y : N) (mid post : pystr) :
  firstn (length (x :: mid ++ y :: post) - length post)
         (x :: mid ++ y :: post)
  = x :: mid ++ [y].
Proof.
  replace (length (x :: mid ++ y :: post) - length post)
    with (length (x :: mid ++ [y]))
    by (cbn [length]; rewrite !length_app; cbn [length]; lia).
  replace (x :: mid ++ y :: post) with ((x :: mid ++ [y]) ++ post)
    by (cbn [app]; now rewrite <- app_assoc).
  rewrite firstn_app, Nat.sub_diag, firstn_all. cbn [firstn].
  apply app_nil_r.
Qed.

Lemma search_json_shape (text : pystr) (m : Re.match_obj) :
  Re.search json_pattern text = Some m ->
  exists pre mid post,
    text = pre ++ 123%N :: mid ++ 125%N :: post
    /\ ~ In 123%N pre /\ ~ In 125%N post
    /\ Re.group0 m = 123%N :: mid ++ [125%N].
Proof.
  revert m. induction text as [|x text IH]; intros m; [discriminate|].
  cbn [Re.search]. rewrite match_at_json.
  destruct (N.eqb_spec x 123%N) as [->|Hx].
  - destruct (after_last 125%N text) as [t|] eqn:E.
    + cbn [option_map Re.orelse]. intros [= <-]. cbn [Re.group0].
      destruct (after_last_split _ _ _ E) as (mid & -> & Hn).
      exists [], mid, t. repeat split; auto.
      exact (firstn_span 123%N 125%N mid t).
    + cbn [option_map Re.orelse].
      rewrite search_json_no_close by now apply after_last_none.
      discriminate.
  - cbn [Re.orelse]. intros H.
    destruct (IH m H) as (pre & mid & post & -> & Hpre & Hpost & Hg).
    exists (x :: pre), mid, post. repeat split; auto.
    intros [Hin|Hin]; [congruence|contradiction].
Qed.

(** X1. What [extract_json] returns is a part of the text: it starts at
    the first opening brace of the text and ends at its last closing
    brace. *)
Theorem extract_json_is_span (text js : pystr) :
  extract_json text = Some js ->
  exists pre mid post,
    text = pre ++ 123%N :: mid ++ 125%N :: post
    /\ ~ In 123%N pre /\ ~ In 125%N post
    /\ js = 123%N :: mid ++ [125%N].
Proof.
  unfold extract_json.
  destruct (Re.search json_pattern text) as [m|] eqn:E; [|discriminate].
  intros [= <-]. exact (search_json_shape text m E).
Qed.

Lemma extract_json_is_span_witness :
  exists pre mid post,
    two_objects = pre ++ 123%N :: mid ++ 125%N :: post
    /\ ~ In 123%N pre /\ ~ In 125%N post
    /\ two_objects_span = 123%N :: mid ++ [125%N].
Proof.
  apply (extract_json_is_span two_objects two_objects_span).
  vm_compute. reflexivity.
Defined.

(** X2. Extracting again from an extracted span gives the span back. *)
Theorem extract_json_idempotent (text js : pystr) :
  extract_json text = Some js -> extract_json js = Some js.
Proof.
  unfold extract_json at 1.
  destruct (Re.search json_pattern text) as [m|] eqn:E; [|discriminate].
  intros [= <-].
  destruct (search_json_shape text m E)
    as (pre & mid & post & _ & _ & _ & ->).
  apply (extract_json_span [] mid []); intros [].
Qed.

Lemma extract_json_idempotent_witness :
  extract_json two_objects_span = Some two_objects_span.
Proof.
  apply (extract_json_idempotent two_objects two_objects_span).
  vm_compute. reflexivity.
Defined.

Lemma after_last_present (c : N) (s : pystr) :
  In c s -> after_last c s <> None.
Proof.
  intros Hin E. now apply after_last_none in E.
Qed.

(** X3. The extractor finds something exactly when some opening brace of
    the text has a closing brace somewhere after it. *)
Theorem extract_json_found_iff (text : pystr) :
  extract_json text <> None
  <-> exists pre mid post, text = pre ++ 123%N :: mid ++ 125%N :: post.
Proof.
  split.
  - unfold extract_json.
    destruct (Re.search json_pattern text) as [m|] eqn:E;
      [intros _|congruence].
    destruct (search_json_shape text m E) as (pre & mid & post & H & _).
    eauto.
  - intros (pre & mid & post & ->). unfold extract_json.
    assert (H : Re.search json_pattern
                  (pre ++ 123%N :: mid ++ 125%N :: post) <> None).
    { induction pre as [|x pre IH]; cbn [app Re.search].
      - rewrite match_at_json, N.eqb_refl.
        destruct (after_last 125%N (mid ++ 125%N :: post)) eqn:E.
        + discriminate.
        + exfalso. apply (after_last_present 125%N (mid ++ 125%N :: post));
            [apply in_or_app; right; now left|exact E].
      - destruct (Re.match_at json_pattern _); [discriminate|exact IH]. }
    destruct (Re.search json_pattern _); [discriminate|congruence].
Qed.

(** ** More on the slide count and the deck *)

Lemma dict_lookup_set_other (key k : pystr) (v : pyvalue) kv :
  k <> key ->
  dict_lookup k (dict_set key v kv) = dict_lookup k kv.
Proof.
  intros Hne.
  assert (Hkey : str_eqb key k = false).
  { destruct (str_eqb key k) eqn:E; [|reflexivity].
    apply str_eqb_eq in E. congruence. }
  induction kv as [|[k' w] kv IH]; cbn [dict_set dict_lookup].
  - now rewrite Hkey.
  - destruct (str_eqb k' key) eqn:E; cbn [dict_lookup].
    + apply str_eqb_eq in E. subst k'. now rewrite Hkey.
    + now rewrite IH.
Qed.

Lemma getitem_setitem_other (d : pyvalue) (key k : pystr) (v : pyvalue) :
  k <> key -> getitem (setitem d key v) k = getitem d k.
Proof.
  intros Hne. destruct d; try reflexivity.
  cbn [setitem getitem]. now rewrite dict_lookup_set_other.
Qed.

(** What [normalize_slides] leaves under ["slides"] has length 6, list or
    not. *)
Lemma normalize_slides_len (pd pd' : pyvalue) :
  normalize_slides pd = Returned pd' ->
  exists v, getitem pd' (lit "slides") = Returned v
            /\ py_len v = Returned 6
            /\ (pd' = pd \/ pd' = setitem pd (lit "slides") v).
Proof.
  unfold normalize_slides.
  destruct (getitem pd (lit "slides")) as [slides|e] eqn:Hg; [|discriminate].
  cbn [obind]. destruct (py_len slides) as [n|e] eqn:Hn; [|discriminate].
  cbn [obind]. destruct (Nat.eqb_spec n 6) as [->|Hne]; cbn [negb].
  - intros [= <-]. exists slides. auto.
  - destruct (Nat.ltb_spec n 6) as [Hlt|Hge].
    + destruct slides as [| | | |l|]; try discriminate.
      intros [= <-]. exists (VList (pad_slides l)).
      rewrite getitem_setitem with (w := VList l) by exact Hg.
      repeat split; auto.
      cbn [py_len]. rewrite pad_slides_spec, length_app, repeat_length.
      cbn [py_len] in Hn. injection Hn as <-. f_equal. lia.
    + destruct slides as [| | |s|l|]; try discriminate;
        cbn [slice6 obind]; intros [= <-]; cbn [py_len] in Hn;
        injection Hn as <-.
      * exists (VStr (firstn 6 s)).
        rewrite getitem_setitem with (w := VStr s) by exact Hg.
        repeat split; auto. cbn [py_len]. rewrite length_firstn.
        f_equal. lia.
      * exists (VList (firstn 6 l)).
        rewrite getitem_setitem with (w := VList l) by exact Hg.
        repeat split; auto. cbn [py_len]. rewrite length_firstn.
        f_equal. lia.
Qed.

(** X4. When the normalisation returns, every key but ["slides"] holds
    what it held before, and normalising the result again changes
    nothing. *)
Theorem normalize_slides_stable (pd pd' : pyvalue) :
  normalize_slides pd = Returned pd' ->
  normalize_slides pd' = Returned pd'
  /\ forall key, key <> lit "slides" -> getitem pd' key = getitem pd key.
Proof.
  intros H.
  destruct (normalize_slides_len pd pd' H) as (v & Hg & Hlen & Hpd).
  split.
  - unfold normalize_slides. rewrite Hg. cbn [obind]. rewrite Hlen.
    reflexivity.
  - intros key Hne. destruct Hpd as [->| ->]; [reflexivity|].
    now apply getitem_setitem_other.
Qed.

Lemma normalize_slides_stable_witness :
  exists pd',
    normalize_slides short_deck = Returned pd'
    /\ normalize_slides pd' = Returned pd'
    /\ getitem pd' (lit "title") = Returned (VStr (lit "Photosynthesis")).
Proof.
  eexists. split; [reflexivity|].
  destruct (normalize_slides_stable short_deck _ eq_refl) as [Hidem Hkeys].
  split; [exact Hidem|].
  rewrite Hkeys; [reflexivity|discriminate].
Defined.

Section Deck.
Context {RT : Runtime}.

Lemma render_deck_from (items : list pyvalue) :
  forall acc deck,
    for_each (fun deck slide_data =>
                (sl <- render_slide slide_data ;;
                 Returned (deck ++ [sl]))%outcome) items acc
    = Returned deck ->
    exists rendered,
      deck = acc ++ rendered
      /\ Forall2 (fun sd sl => render_slide sd = Returned sl) items rendered.
Proof.
  induction items as [|sd items IH]; intros acc deck; cbn [for_each].
  - intros [= <-]. exists []. split; [now rewrite app_nil_r|constructor].
  - destruct (render_slide sd) as [sl|e] eqn:E; cbn [obind]; [|discriminate].
    intros H. apply IH in H as (rendered & -> & HF).
    exists (sl :: rendered). split; [now rewrite <- app_assoc|].
    now constructor.
Qed.

Lemma render_deck_all (items : list pyvalue) (rendered : list slide) :
  Forall2 (fun sd sl => render_slide sd = Returned sl) items rendered ->
  forall acc,
    for_each (fun deck slide_data =>
                (sl <- render_slide slide_data ;;
                 Returned (deck ++ [sl]))%outcome) items acc
    = Returned (acc ++ rendered).
Proof.
  induction 1 as [|sd sl items rendered Hsd _ IH]; intros acc;
    cbn [for_each].
  - now rewrite app_nil_r.
  - rewrite Hsd. cbn [obind]. rewrite IH. now rewrite <- app_assoc.
Qed.

(** X5. The deck is the slides rendered one by one, in their order: the
    loop of [create_powerpoint] returns a deck exactly when every slide
    renders, and the deck then holds the rendered slides position by
    position. *)
Theorem render_deck_pointwise (items : list pyvalue) (deck : list slide) :
  render_deck items = Returned deck
  <-> Forall2 (fun sd sl => render_slide sd = Returned sl) items deck.
Proof.
  unfold render_deck. split.
  - intros H. apply render_deck_from in H as (rendered & -> & HF). exact HF.
  - intros HF. exact (render_deck_all items deck HF []).
Qed.








End Deck.


(** ** More on the render rules *)

Section Rules.
Context {RT : Runtime}.

Lemma bullets_added (pts : list pystr) :
  forall tf,
    for_each (fun tf point =>
                (t <- as_text point ;;
                 Returned (add_paragraph tf (bullet_paragraph t)))%outcome)
             (map VStr pts) tf
    = Returned (tf ++ map bullet_paragraph pts).
Proof.
  induction pts as [|p pts IH]; intros tf; cbn [map for_each].
  - now rewrite app_nil_r.
  - cbn [as_text obind]. rewrite IH. unfold add_paragraph.
    now rewrite <- app_assoc.
Qed.

(** X8. A [bullet_points] slide whose points are strings gets, on the
    Title and Content layout, its styled title and a body that is the one
    empty paragraph [clear] leaves followed by one paragraph a point, in
    the order of the points, each left-aligned at level 0 in 20 pt. *)
Theorem bullet_points_one_paragraph_each (slide_data : pyvalue)
  (title : pystr) (pts : list pystr) :
  getitem slide_data (lit "type") = Returned (VStr (lit "bullet_points")) ->
  getitem slide_data (lit "title") = Returned (VStr title) ->
  getitem slide_data (lit "points") = Returned (VList (map VStr pts)) ->
  has_title (slide_layouts 1) = true ->
  1 < n_placeholders (slide_layouts 1) ->
  render_slide slide_data
  = Returned
      (MkSlide 1
         (Some (map title_style (set_text title)))
         (Some (new_paragraph :: map bullet_paragraph pts))
         [])
  /\ Forall (fun p => p_level p = 0 /\ p_alignment p = Some LEFT
                      /\ (p_text p <> [] ->
                          f_size (p_font p) = Some 20
                          /\ f_color (p_font p) = Some color_text))
            (map bullet_paragraph pts).
Proof.
  intros Hty Htitle Hpts Ht Hn. split.
  - unfold render_slide. rewrite Hty. cbn [obind].
    change (select_layout (VStr (lit "bullet_points"))) with 1.
    unfold add_slide. rewrite Ht.
    replace (1 <? n_placeholders (slide_layouts 1)) with true
      by (symmetry; now apply Nat.ltb_lt).
    cbn [s_title]. rewrite Htitle. cbn [obind as_text].
    unfold fill_content.
    change (eq_str (VStr (lit "bullet_points")) (lit "title_slide"))
      with false.
    change (eq_str (VStr (lit "bullet_points")) (lit "bullet_points"))
      with true.
    cbv iota. unfold bullet_points_rule. cbn [s_body with_title].
    rewrite Hpts. cbn [obind py_iter]. rewrite bullets_added.
    reflexivity.
  - apply Forall_forall. intros p Hp. apply in_map_iff in Hp as (t & <- & _).
    unfold bullet_paragraph, style_runs. cbn.
    destruct t; cbn; repeat split; auto; congruence.
Qed.

Lemma paragraphs_added (texts : list pystr) :
  forall i tf,
    for_each (fun (st : nat * text_frame) paragraph_text =>
                (t <- as_text paragraph_text ;;
                 Returned (S (fst st),
                           add_paragraph (snd st)
                             (body_paragraph (fst st) t)))%outcome)
             (map VStr texts) (i, tf)
    = Returned (i + length texts,
                tf ++ map (fun it => body_paragraph (fst it) (snd it))
                          (combine (seq i (length texts)) texts)).
Proof.
  induction texts as [|t texts IH]; intros i tf;
    cbn [map for_each length seq combine].
  - now rewrite app_nil_r, Nat.add_0_r.
  - cbn [as_text obind fst snd]. rewrite IH. unfold add_paragraph.
    rewrite <- app_assoc. cbn [app fst snd]. f_equal. f_equal. lia.
Qed.

(** X9. A [content_slide] whose paragraphs are strings gets, on layout 5,
    its styled title and one text box: an empty paragraph, then one
    paragraph a text, in order; the first of them has no spacing before
    it and every later one has 12 pt. *)
Theorem content_slide_spacing (slide_data : pyvalue)
  (title : pystr) (texts : list pystr) :
  getitem slide_data (lit "type") = Returned (VStr (lit "content_slide")) ->
  getitem slide_data (lit "title") = Returned (VStr title) ->
  getitem slide_data (lit "paragraphs") = Returned (VList (map VStr texts)) ->
  has_title (slide_layouts 5) = true ->
  render_slide slide_data
  = Returned
      (with_textbox
         (new_paragraph
          :: map (fun it => body_paragraph (fst it) (snd it))
                 (combine (seq 0 (length texts)) texts))
         (with_title (map title_style (set_text title))
                     (add_slide slide_layouts 5)))
  /\ forall i t,
       p_space_before (body_paragraph i t)
       = if i =? 0 then None else Some 12.
Proof.
  intros Hty Htitle Hpar Ht. split.
  - unfold render_slide. rewrite Hty. cbn [obind].
    change (select_layout (VStr (lit "content_slide"))) with 5.
    assert (Hs : s_title (add_slide slide_layouts 5) = Some fresh_frame)
      by (unfold add_slide; now rewrite Ht).
    rewrite Hs. rewrite Htitle. cbn [obind as_text].
    unfold fill_content.
    change (eq_str (VStr (lit "content_slide")) (lit "title_slide"))
      with false.
    change (eq_str (VStr (lit "content_slide")) (lit "bullet_points"))
      with false.
    change (eq_str (VStr (lit "content_slide")) (lit "content_slide"))
      with true.
    cbv iota.
    apply getitem_dict in Hpar as (kv & -> & Hlook).
    unfold get_default, dict_get. rewrite Hlook. cbn [obind py_iter].
    rewrite paragraphs_added. reflexivity.
  - intros i t. unfold body_paragraph, style_runs.
    destruct i, t; reflexivity.
Qed.

End Rules.

Lemma bullet_points_one_paragraph_each_witness :
  @render_slide (ascii_runtime reject_all) chart_as_bullets
  = Returned
      (MkSlide 1
         (Some (map title_style (set_text (lit "Growth"))))
         (Some (new_paragraph
                :: map bullet_paragraph [lit "Up"; lit "Down"]))
         []).
Proof.
  apply (@bullet_points_one_paragraph_each (ascii_runtime reject_all)
           chart_as_bullets (lit "Growth") [lit "Up"; lit "Down"]);
    try reflexivity.
  cbn. lia.
Defined.

Lemma content_slide_spacing_witness :
  @render_slide (ascii_runtime reject_all) two_paragraph_slide
  = Returned
      (with_textbox
         [ new_paragraph;
           body_paragraph 0 (lit "Light reactions");
           body_paragraph 1 (lit "Dark reactions") ]
         (with_title (map title_style (set_text (lit "Stages")))
                     (add_slide default_layouts 5))).
Proof.
  apply (@content_slide_spacing (ascii_runtime reject_all)
           two_paragraph_slide (lit "Stages")
           [lit "Light reactions"; lit "Dark reactions"]);
    reflexivity.
Defined.

Section Fields.
Context {RT : Runtime}.

(** X10. The fields a slide cannot do without.  A slide that is not an
    object raises [TypeError]; an object without ["type"] raises
    [KeyError] on that key; with a type but without ["title"] it raises
    [KeyError] on ["title"] when its layout has a title shape; and a
    [bullet_points] slide without ["points"] raises [KeyError] on
    ["points"] when its layout has a second placeholder. *)
Theorem required_fields (kv : list (pystr * pyvalue)) :
  (forall sd, (forall kv', sd <> VDict kv') ->
              exists e, render_slide sd = Raised e
                        /\ exn_class_of e = TypeError)
  /\ (dict_lookup (lit "type") kv = None ->
      render_slide (VDict kv) = Raised (key_error (lit "type")))
  /\ (forall ty,
        dict_lookup (lit "type") kv = Some ty ->
        dict_lookup (lit "title") kv = None ->
        has_title (slide_layouts (select_layout ty)) = true ->
        render_slide (VDict kv) = Raised (key_error (lit "title")))
  /\ (forall title,
        dict_lookup (lit "type") kv = Some (VStr (lit "bullet_points")) ->
        dict_lookup (lit "title") kv = Some (VStr title) ->
        dict_lookup (lit "points") kv = None ->
        1 < n_placeholders (slide_layouts 1) ->
        render_slide (VDict kv) = Raised (key_error (lit "points"))).
Proof.
  repeat split.
  - intros sd Hsd. unfold render_slide.
    destruct sd; try (eexists; split; reflexivity).
    now destruct (Hsd entries).
  - intros Hty. unfold render_slide. cbn [getitem]. now rewrite Hty.
  - intros ty Hty Htitle Ht. unfold render_slide. cbn [getitem].
    rewrite Hty. cbn [obind]. unfold add_slide at 1. rewrite Ht.
    cbn [s_title]. now rewrite Htitle.
  - intros title Hty Htitle Hpts Hn. unfold render_slide. cbn [getitem].
    rewrite Hty. cbn [obind].
    change (select_layout (VStr (lit "bullet_points"))) with 1.
    unfold add_slide.
    replace (1 <? n_placeholders (slide_layouts 1)) with true
      by (symmetry; now apply Nat.ltb_lt).
    destruct (has_title (slide_layouts 1)); cbn [s_title];
      rewrite ?Htitle; cbn [obind as_text]; unfold fill_content;
      change (eq_str (VStr (lit "bullet_points")) (lit "title_slide"))
        with false;
      change (eq_str (VStr (lit "bullet_points")) (lit "bullet_points"))
        with true;
      cbv iota; unfold bullet_points_rule; cbn [s_body with_title getitem];
      now rewrite Hpts.
Qed.

(** X11. The fields a slide can do without.  A slide with a string title
    and none of ["subtitle"], ["content"], ["paragraphs"] and
    ["key_takeaway"] renders, whatever its type, unless the type is
    [bullet_points]: a title slide gets an empty subtitle, a content slide
    an empty text box, a conclusion an empty line, a section header
    nothing. *)
Theorem optional_fields (kv : list (pystr * pyvalue)) (ty : pyvalue)
  (title : pystr) :
  dict_lookup (lit "type") kv = Some ty ->
  dict_lookup (lit "title") kv = Some (VStr title) ->
  dict_lookup (lit "subtitle") kv = None ->
  dict_lookup (lit "content") kv = None ->
  dict_lookup (lit "paragraphs") kv = None ->
  dict_lookup (lit "key_takeaway") kv = None ->
  eq_str ty (lit "bullet_points") = false ->
  exists sl, render_slide (VDict kv) = Returned sl.
Proof.
  intros Hty Htitle Hsub Hcon Hpar Hkey Hb.
  unfold render_slide. cbn [getitem]. rewrite Hty. cbn [obind].
  assert (Hfill : forall sl, exists sl',
             fill_content ty (VDict kv) sl = Returned sl').
  { intros sl. unfold fill_content. rewrite Hb.
    unfold get_default, dict_get, py_in, has_key.
    rewrite Hsub, Hcon, Hpar, Hkey.
    destruct (eq_str ty (lit "title_slide")).
    { destruct (s_body sl); cbn [obind as_text]; eauto. }
    destruct (eq_str ty (lit "content_slide")).
    { cbn [obind py_iter for_each]. eauto. }
    destruct (eq_str ty (lit "section_header")).
    { cbn [obind]. eauto. }
    destruct (eq_str ty (lit "conclusion_slide")); [|eauto].
    destruct (s_body sl); cbn [obind as_text]; eauto. }
  destruct (s_title (add_slide slide_layouts (select_layout ty)));
    [|apply Hfill].
  rewrite Htitle. cbn [obind as_text]. apply Hfill.
Qed.

End Fields.

Lemma required_fields_witness :
  @render_slide (ascii_runtime reject_all)
     (VDict [ (lit "title", VStr (lit "Inputs"));
              (lit "type", VStr (lit "bullet_points")) ])
  = Raised (key_error (lit "points")).
Proof.
  apply (proj2 (proj2 (proj2
           (@required_fields (ascii_runtime reject_all)
              [ (lit "title", VStr (lit "Inputs"));
                (lit "type", VStr (lit "bullet_points")) ]))))
    with (title := lit "Inputs"); try reflexivity.
  cbn. lia.
Defined.

Lemma optional_fields_witness :
  exists sl,
    @render_slide (ascii_runtime reject_all)
       (VDict [ (lit "title", VStr (lit "The end"));
                (lit "type", VStr (lit "conclusion_slide")) ])
    = Returned sl.
Proof.
  apply (@optional_fields (ascii_runtime reject_all)
           [ (lit "title", VStr (lit "The end"));
             (lit "type", VStr (lit "conclusion_slide")) ]
           (VStr (lit "conclusion_slide")) (lit "The end"));
    reflexivity.
Defined.

(** ** More on the classifiers *)

Section Intents.
Context {RT : Runtime}.


End Intents.

(** ** Substrings *)

Lemma startswith_iff (p s : pystr) :
  startswith p s = true <-> exists r, s = p ++ r.
Proof.
  revert s. induction p as [|a p IH]; intros s; cbn [startswith].
  - split; [intros _; now exists s|reflexivity].
  - destruct s as [|b s].
    + split; [discriminate|]. intros (r & H). discriminate.
    + rewrite andb_true_iff, IH, N.eqb_eq. split.
      * intros (-> & r & ->). now exists r.
      * intros (r & H). injection H as -> ->. split; [reflexivity|].
        now exists r.
Qed.

Lemma str_in_iff (needle hay : pystr) :
  str_in needle hay = true <-> exists a b, hay = a ++ needle ++ b.
Proof.
  induction hay as [|c hay IH]; cbn [str_in].
  - rewrite orb_false_r, startswith_iff. split.
    + intros (r & H). exists [], r. exact H.
    + intros (a & b & H). symmetry in H.
      apply app_eq_nil in H as (-> & H).
      apply app_eq_nil in H as (-> & ->). now exists [].
  - rewrite orb_true_iff, startswith_iff, IH. split.
    + intros [(r & ->)|(a & b & ->)].
      * now exists [], r.
      * now exists (c :: a), b.
    + intros ([|x a] & b & H).
      * left. exists b. exact H.
      * right. injection H as -> ->. eauto.
Qed.

Lemma str_in_trans (a b c : pystr) :
  str_in a b = true -> str_in b c = true -> str_in a c = true.
Proof.
  rewrite !str_in_iff. intros (u & v & ->) (x & y & ->).
  exists (x ++ u), (v ++ y). now rewrite <- !app_assoc.
Qed.

(** X13. Of the fifteen keywords of [streamlit1.py], ten decide nothing:
    a text contains one of the fifteen exactly when it contains one of
    [ppt], [powerpoint], [presentation], [slide] and [deck]. *)
Theorem keyword_test_base (text : pystr) :
  existsb (fun keyword => str_in keyword text) Streamlit1.ppt_keywords
  = existsb (fun keyword => str_in keyword text) base_keywords.
Proof.
  apply eq_true_iff_eq. rewrite !existsb_exists. split.
  - intros (k & Hin & Hk).
    assert (Hbase : exists b, In b base_keywords /\ str_in b k = true).
    { cbn in Hin.
      repeat (destruct Hin as [<-|Hin];
              [first [ exists (lit "ppt"); split; [in_list|reflexivity]
                     | exists (lit "powerpoint"); split; [in_list|reflexivity]
                     | exists (lit "presentation");
                       split; [in_list|reflexivity]
                     | exists (lit "slide"); split; [in_list|reflexivity]
                     | exists (lit "deck"); split; [in_list|reflexivity] ]|]).
      destruct Hin. }
    destruct Hbase as (b & Hb & Hbk). exists b. split; [exact Hb|].
    now apply str_in_trans with k.
  - intros (b & Hin & Hb). exists b. split; [|exact Hb].
    cbn in Hin.
    repeat (destruct Hin as [<-|Hin]; [in_list|]). destruct Hin.
Qed.

(** ** More on the request driver *)

Lemma mt_word {R} (w : pystr) :
  forall s g (k : Re.cont R),
    Re.mt (Re.Word w) s g k
    = if startswith w s then k (skipn (length w) s) g else None.
Proof.
  induction w as [|c w IH]; intros s g k; [reflexivity|].
  cbn [Re.Word].
  change (Re.mt (Re.Seq (Re.One (Re.CChar c)) (Re.Word w)) s g k)
    with (match s with
          | x :: s' => if N.eqb x c then Re.mt (Re.Word w) s' g k else None
          | [] => None
          end).
  destruct s as [|x s]; [reflexivity|].
  cbn [startswith length skipn]. rewrite (N.eqb_sym c x).
  destruct (N.eqb x c); [apply IH|reflexivity].
Qed.

Lemma match_at_topic_verb (s : pystr) :
  (forall v, In v topic_verbs -> startswith v s = false) ->
  Re.match_at topic_pattern s = None.
Proof.
  intros Hno. unfold Re.match_at, topic_pattern, word.
  match goal with
  | |- Re.mt (Re.Seq (Re.Alt (Re.Word ?a) (Re.Alt (Re.Word ?b)
                        (Re.Alt (Re.Word ?c) (Re.Word ?d)))) ?rest) s ?g ?k
       = None =>
      change (Re.orelse
                (Re.mt (Re.Word a) s g (fun s' g' => Re.mt rest s' g' k))
                (Re.orelse
                   (Re.mt (Re.Word b) s g (fun s' g' => Re.mt rest s' g' k))
                   (Re.orelse
                      (Re.mt (Re.Word c) s g
                             (fun s' g' => Re.mt rest s' g' k))
                      (Re.mt (Re.Word d) s g
                             (fun s' g' => Re.mt rest s' g' k))))
              = None)
  end.
  rewrite !mt_word.
  rewrite (Hno (lit "generate")), (Hno (lit "create")),
    (Hno (lit "make")), (Hno (lit "prepare")) by in_list.
  reflexivity.
Qed.

Lemma search_topic_none (s : pystr) :
  (forall v, In v topic_verbs -> str_in v s = false) ->
  Re.search topic_pattern s = None.
Proof.
  induction s as [|c s IH]; intros Hno; cbn [Re.search].
  - rewrite match_at_topic_verb; [reflexivity|].
    intros v Hv. specialize (Hno v Hv). cbn [str_in] in Hno.
    now apply orb_false_iff in Hno.
  - rewrite match_at_topic_verb.
    + cbn [Re.orelse]. apply IH. intros v Hv. specialize (Hno v Hv).
      cbn [str_in] in Hno. now apply orb_false_iff in Hno.
    + intros v Hv. specialize (Hno v Hv). cbn [str_in] in Hno.
      now apply orb_false_iff in Hno.
Qed.

Section Requests.
Context {RT : Runtime}.

(** X14. A request whose lower-cased text has none of the verbs
    [generate], [create], [make] and [prepare] is taken as the topic
    whole, in the case the user typed it. *)
Theorem topic_without_verb (user_input : pystr) :
  (forall v, In v topic_verbs -> str_in v (lower user_input) = false) ->
  extract_topic user_input = Some user_input.
Proof.
  intros Hno. unfold extract_topic. now rewrite search_topic_none.
Qed.

Lemma run_after_generator (topic : pystr)
  (remote : chat_request -> outcome response) (v : pyvalue)
  (k : pyvalue -> prog pystr) :
  fst (run remote (generate_presentation_content topic default_model))
  = Returned v ->
  run remote
      (presentation_data <~ generate_presentation_content
                              topic default_model ;;
       k presentation_data)%prog
  = let (r, t) := run remote (k v) in
    (r, RemoteCall (generator_request topic default_model) :: t).
Proof.
  intros Hgen.
  destruct (generator_always_returns topic default_model remote)
    as (v' & Hrun).
  rewrite Hrun in Hgen. cbn [fst] in Hgen. injection Hgen as ->.
  rewrite run_bind, Hrun. now destruct (run remote (k v)).
Qed.

(** X15. When the call of the generator raises, the request ends in the
    error message carrying the text of the exception; the run stops
    after the call and nothing is rendered, saved or offered for
    download. *)
Theorem request_reports_remote_failure (user_input topic0 : pystr)
  (remote : chat_request -> outcome response) (e : pyexn) :
  extract_topic user_input = Some topic0 ->
  let topic := capitalize (strip topic0) in
  remote (generator_request topic default_model) = Raised e ->
  run remote (process_ppt_request user_input)
  = (Returned (msg_error ++ py_str (VStr (exn_str e))),
     before_generation topic).
Proof.
  intros Htopic topic Hdown.
  assert (Hgen : fst (run remote
                        (generate_presentation_content topic default_model))
                 = Returned (error_dict (exn_str e))).
  { unfold generate_presentation_content, chat_completions_create.
    fold (generator_request topic default_model).
    cbn [bind try_except run]. rewrite Hdown. reflexivity. }
  unfold process_ppt_request. rewrite Htopic. cbn [bind run]. fold topic.
  rewrite (run_after_generator topic remote _ _ Hgen).
  reflexivity.
Qed.

(** X16. A parsed object with neither ["error"] nor ["slides"] is not
    reported as a failure: the driver goes on to [create_powerpoint],
    which raises [KeyError] on ["slides"]; the exception leaves
    [process_ppt_request] uncaught, after the two status messages and
    before any file is written. *)
Theorem request_raises_without_slides (user_input topic0 : pystr)
  (remote : chat_request -> outcome response)
  (kv : list (pystr * pyvalue)) :
  extract_topic user_input = Some topic0 ->
  let topic := capitalize (strip topic0) in
  fst (run remote (generate_presentation_content topic default_model))
  = Returned (VDict kv) ->
  has_key (lit "error") kv = false ->
  dict_lookup (lit "slides") kv = None ->
  run remote (process_ppt_request user_input)
  = (Raised (key_error (lit "slides")),
     before_generation topic
     ++ [ Effect (Info msg_designing); Effect (Spinner msg_creating) ]).
Proof.
  intros Htopic topic Hgen Herr Hslides.
  unfold process_ppt_request. rewrite Htopic. cbn [bind run]. fold topic.
  rewrite (run_after_generator topic remote _ _ Hgen).
  cbn [py_in lift bind]. rewrite Herr.
  unfold deliver, create_powerpoint, normalize_slides.
  cbn [getitem]. rewrite Hslides. reflexivity.
Qed.



End Requests.

Lemma topic_without_verb_witness :
  @extract_topic (ascii_runtime reject_all) (lit "PPT on Osmosis")
  = Some (lit "PPT on Osmosis").
Proof.
  apply (@topic_without_verb (ascii_runtime reject_all)).
  intros v Hv. cbn in Hv.
  destruct Hv as [<-|[<-|[<-|[<-|[]]]]]; reflexivity.
Defined.

Lemma request_reports_remote_failure_witness :
  run remote_down
      (@process_ppt_request (ascii_runtime reject_all)
         (lit "create a ppt on osmosis"))
  = (Returned (msg_error ++ lit "Connection error."),
     @before_generation (ascii_runtime reject_all) (lit "Osmosis")).
Proof.
  apply (@request_reports_remote_failure (ascii_runtime reject_all)
           (lit "create a ppt on osmosis") (lit "osmosis") remote_down
           (MkExn OtherException (lit "Connection error.")));
    reflexivity.
Defined.

Lemma request_raises_without_slides_witness :
  run (remote_says (lit "{}"))
      (@process_ppt_request (ascii_runtime loads_title_only)
         (lit "create a ppt on osmosis"))
  = (Raised (key_error (lit "slides")),
     @before_generation (ascii_runtime loads_title_only) (lit "Osmosis")
     ++ [ Effect (Info msg_designing); Effect (Spinner msg_creating) ]).
Proof.
  apply (@request_raises_without_slides (ascii_runtime loads_title_only)
           (lit "create a ppt on osmosis") (lit "osmosis")
           (remote_says (lit "{}"))
           [ (lit "title", VStr (lit "Osmosis")) ]);
    reflexivity.
Defined.


(** ** The chat query *)

Lemma chat_messages_end (history : list message) (query : pystr) :
  (exists before,
      chat_messages history query = before ++ [MkMsg (lit "user") query])
  /\ (forall h, history = h ++ [MkMsg (lit "user") query] ->
                chat_messages history query = history)
  /\ (chat_messages history query = history
      \/ chat_messages history query
         = history ++ [MkMsg (lit "user") query]).
Proof.
  unfold chat_messages, Streamlit1Chat.last_is_not.
  repeat split.
  - destruct (rev history) as [|m r] eqn:E; [eauto|].
    destruct (str_eqb (role m) (lit "user")) eqn:Er; cbn [negb orb];
      [|eauto].
    destruct (str_eqb (content m) query) eqn:Ec; cbn [negb]; [|eauto].
    apply str_eqb_eq in Er, Ec. exists (rev r).
    rewrite <- (rev_involutive history), E. cbn [rev].
    destruct m as [ro co]. cbn in Er, Ec. now subst.
  - intros h ->. rewrite rev_app_distr. cbn [rev app role content].
    now rewrite !str_eqb_refl.
  - destruct (match rev history with [] => true | m :: _ => _ end); auto.
Qed.

Lemma run_chat_query (messages : list message) (model : pystr)
  (remote : chat_request -> outcome response) :
  run remote
      (try_except
         (completion <~ chat_completions_create model messages ;;
          first <~ lift (item (choices completion) 0) ;;
          Ret (message_content first))%prog
         (fun e =>
            Ret (Some (lit "Error generating response: " ++ exn_str e))))
  = (Returned
       match remote (MkReq model messages) with
       | Returned r =>
           match choices r with
           | first :: _ => message_content first
           | [] => Some (lit "Error generating response: "
                         ++ lit "list index out of range")
           end
       | Raised e => Some (lit "Error generating response: " ++ exn_str e)
       end,
     [RemoteCall (MkReq model messages)]).
Proof.
  unfold chat_completions_create. cbn [bind try_except run].
  destruct (remote (MkReq model messages)) as [r|e];
    cbn [lift bind try_except run]; [|reflexivity].
  unfold item. destruct (choices r) as [|first rest];
    cbn [nth_error lift bind try_except run]; reflexivity.
Qed.

Section ChatQuery.
Context {RT : Runtime} {UC : MultilingualApp.Unicode}.

(** X18. In both files the chat query makes exactly one call and does
    not raise.  What it sends ends with the user's query as a [user]
    message and is the history, followed by that message only when the
    history does not already end with it: called as [main] calls it,
    after the query has been appended, it sends the history as it is.
    The multilingual file sends the history without the language tags. *)
Theorem chat_query_sends_history (query model : pystr)
  (remote : chat_request -> outcome response) :
  (forall history,
     exists reply,
       run remote (Streamlit1Chat.process_chat_query history query model)
       = (Returned reply,
          [RemoteCall (MkReq model (chat_messages history query))]))
  /\ (forall history,
        exists reply,
          run remote (MultilingualApp.process_chat_query history query model)
          = (Returned reply,
             [RemoteCall
                (MkReq model (chat_messages (map untag history) query))]))
  /\ (forall history,
        (exists before,
            chat_messages history query
            = before ++ [MkMsg (lit "user") query])
        /\ (forall h, history = h ++ [MkMsg (lit "user") query] ->
                      chat_messages history query = history)
        /\ (chat_messages history query = history
            \/ chat_messages history query
               = history ++ [MkMsg (lit "user") query])).
Proof.
  split; [|split].
  - intros history. eexists.
    exact (run_chat_query (chat_messages history query) model remote).
  - intros history. eexists.
    exact (run_chat_query (chat_messages (map untag history) query)
                          model remote).
  - intros history. apply chat_messages_end.
Qed.

(** X19. The reply of the chat query: the content of the first choice as
    the service gave it, neither stripped nor checked; and when the call
    raises or the response has no choice, a reply that is the text
    [Error generating response: ] followed by the text of the exception,
    returned like any other reply. *)
Theorem chat_query_reply (history : list message) (query model : pystr)
  (remote : chat_request -> outcome response) :
  let rq := MkReq model (chat_messages history query) in
  let reply :=
    fst (run remote
             (Streamlit1Chat.process_chat_query history query model)) in
  (forall e, remote rq = Raised e ->
     reply = Returned (Some (lit "Error generating response: "
                             ++ exn_str e)))
  /\ (forall r first rest,
        remote rq = Returned r -> choices r = first :: rest ->
        reply = Returned (message_content first))
  /\ (forall r,
        remote rq = Returned r -> choices r = [] ->
        reply = Returned (Some (lit "Error generating response: "
                                ++ lit "list index out of range"))).
Proof.
  intros rq reply. subst reply.
  unfold Streamlit1Chat.process_chat_query.
  fold (chat_messages history query).
  rewrite run_chat_query. fold rq. cbn [fst].
  repeat split.
  - intros e ->. reflexivity.
  - intros r first rest -> ->. reflexivity.
  - intros r -> ->. reflexivity.
Qed.

End ChatQuery.

Lemma chat_query_sends_history_witness :
  chat_messages
    [ MkMsg (lit "user") (lit "hello");
      MkMsg (lit "assistant") (lit "Hi!");
      MkMsg (lit "user") (lit "what is osmosis") ]
    (lit "what is osmosis")
  = [ MkMsg (lit "user") (lit "hello");
      MkMsg (lit "assistant") (lit "Hi!");
      MkMsg (lit "user") (lit "what is osmosis") ].
Proof.
  apply (proj1 (proj2 (proj2 (proj2
           (chat_query_sends_history (lit "what is osmosis") default_model
              remote_down))
           [ MkMsg (lit "user") (lit "hello");
             MkMsg (lit "assistant") (lit "Hi!");
             MkMsg (lit "user") (lit "what is osmosis") ]))
         [ MkMsg (lit "user") (lit "hello");
           MkMsg (lit "assistant") (lit "Hi!") ]).
  reflexivity.
Defined.

Lemma chat_query_reply_witness :
  fst (run remote_down
           (Streamlit1Chat.process_chat_query [] (lit "hello")
              default_model))
  = Returned (Some (lit "Error generating response: "
                    ++ lit "Connection error.")).
Proof.
  apply (proj1 (chat_query_reply [] (lit "hello") default_model
                  remote_down)
               (MkExn OtherException (lit "Connection error."))).
  reflexivity.
Defined.

(** ** Splitting and stripping *)

Lemma lstrip_all_space (s : pystr) : all_space s -> lstrip s = [].
Proof.
  induction 1 as [|c s Hc _ IH]; cbn [lstrip]; [reflexivity|].
  now rewrite Hc.
Qed.

Lemma lstrip_decompose (s : pystr) :
  exists t, all_space t /\ s = t ++ lstrip s.
Proof.
  induction s as [|c s (t & Ht & IH)]; cbn [lstrip].
  - exists []. split; [constructor|reflexivity].
  - destruct (isspace c) eqn:E.
    + exists (c :: t). split; [now constructor|]. cbn [app]. now f_equal.
    + exists []. split; [constructor|reflexivity].
Qed.

Lemma rstrip_decompose (s : pystr) :
  exists t, all_space t /\ s = rstrip s ++ t.
Proof.
  destruct (lstrip_decompose (rev s)) as (t & Ht & E).
  exists (rev t). split; [now apply Forall_rev|].
  unfold rstrip. rewrite <- rev_app_distr, <- E. now rewrite rev_involutive.
Qed.

Lemma strip_all_space (s : pystr) : all_space s -> strip s = [].
Proof.
  intros H. unfold strip. now rewrite lstrip_all_space.
Qed.

Lemma split_ws_all_space (s : pystr) : all_space s -> split_ws s = [].
Proof.
  induction 1 as [|c s Hc _ IH]; cbn [split_ws]; [reflexivity|].
  now rewrite Hc.
Qed.

Lemma split_ws_skip (ws s : pystr) :
  all_space ws -> split_ws (ws ++ s) = split_ws s.
Proof.
  induction 1 as [|c ws Hc _ IH]; [reflexivity|].
  cbn [app split_ws]. now rewrite Hc.
Qed.

Lemma split_ws_lstrip (s : pystr) : split_ws (lstrip s) = split_ws s.
Proof.
  destruct (lstrip_decompose s) as (t & Ht & E).
  rewrite E at 2. now rewrite split_ws_skip.
Qed.

Lemma split_ws_trailing (s t : pystr) :
  all_space t -> split_ws (s ++ t) = split_ws s.
Proof.
  intros Ht. induction s as [|c s IH].
  - cbn [app]. now apply split_ws_all_space.
  - cbn [app split_ws]. destruct (isspace c); [exact IH|].
    destruct s as [|d s].
    + cbn [app]. destruct t as [|d t]; [reflexivity|].
      inversion Ht as [|? ? Hd Ht']; subst. rewrite Hd.
      cbn [split_ws]. rewrite Hd. now rewrite split_ws_all_space.
    + cbn [app] in *. destruct (isspace d); now rewrite IH.
Qed.

Lemma split_ws_strip (s : pystr) : split_ws (strip s) = split_ws s.
Proof.
  unfold strip.
  destruct (rstrip_decompose (lstrip s)) as (t & Ht & E).
  rewrite <- (split_ws_lstrip s). rewrite E at 2.
  now rewrite split_ws_trailing.
Qed.

Lemma split_ws_word (tok rest : pystr) :
  tok <> [] -> Forall (fun c => isspace c = false) tok -> word_ends rest ->
  split_ws (tok ++ rest) = tok :: split_ws rest.
Proof.
  intros Hne Htok Hrest. induction tok as [|c tok IH]; [congruence|].
  inversion Htok as [|? ? Hc Htok']; subst.
  cbn [app split_ws]. rewrite Hc.
  destruct tok as [|c' tok].
  - cbn [app]. destruct Hrest as [->|(d & r & -> & Hd)]; [reflexivity|].
    now rewrite Hd.
  - cbn [app] in *. inversion Htok' as [|? ? Hc' _]; subst.
    rewrite Hc'. rewrite IH by (auto; discriminate). reflexivity.
Qed.

Lemma lstrip_chars_skip (chars p s : pystr) :
  Forall (fun c => one_of chars c = true) p ->
  lstrip_chars chars (p ++ s) = lstrip_chars chars s.
Proof.
  induction 1 as [|c p Hc _ IH]; [reflexivity|].
  cbn [app lstrip_chars]. now rewrite Hc.
Qed.

Lemma strip_chars_core (chars p1 body p2 : pystr) (a z : N) :
  Forall (fun c => one_of chars c = true) p1 ->
  Forall (fun c => one_of chars c = true) p2 ->
  one_of chars a = false -> one_of chars z = false ->
  strip_chars chars (p1 ++ (a :: body ++ [z]) ++ p2) = a :: body ++ [z].
Proof.
  intros H1 H2 Ha Hz. unfold strip_chars.
  rewrite lstrip_chars_skip by exact H1.
  cbn [app lstrip_chars]. rewrite Ha.
  change (a :: (body ++ [z]) ++ p2) with ((a :: body ++ [z]) ++ p2).
  rewrite rev_app_distr.
  rewrite lstrip_chars_skip by now apply Forall_rev.
  change (a :: body ++ [z]) with ((a :: body) ++ [z]).
  rewrite rev_app_distr. cbn [rev app lstrip_chars]. rewrite Hz.
  change (z :: rev body ++ [a]) with ([z] ++ rev (a :: body)).
  rewrite rev_app_distr, rev_involutive. reflexivity.
Qed.

Lemma punctuation_not_space (c : N) :
  one_of MultilingualApp.punctuation c = true -> isspace c = false.
Proof.
  unfold one_of. cbn [MultilingualApp.punctuation lit app map existsb
                      String.list_ascii_of_string].
  rewrite !orb_true_iff, !N.eqb_eq.
  intros [H|[H|[H|[H|[H|H]]]]]; try discriminate; subst; reflexivity.
Qed.

(** ** Language detection *)

Lemma is_language_in (name : pystr) :
  MultilingualApp.is_language name = true
  <-> In name MultilingualApp.language_names.
Proof.
  unfold MultilingualApp.is_language. rewrite existsb_exists. split.
  - intros (k & Hk & E). apply str_eqb_eq in E. now subst.
  - intros H. exists name. split; [exact H|apply str_eqb_refl].
Qed.

Lemma language_info_known (name : pystr) :
  In name MultilingualApp.language_names ->
  exists info,
    MultilingualApp.language_info name MultilingualApp.INDIAN_LANGUAGES
    = Returned info.
Proof.
  intros H. cbn in H.
  repeat (destruct H as [<-|H]; [eexists; reflexivity|]). destruct H.
Qed.

Section Detector.
Context {RT : Runtime} {UC : MultilingualApp.Unicode}.

(** X20. The language detector returns, whatever the service does, after
    exactly one call; what it returns is a key of [INDIAN_LANGUAGES], so
    that the look-ups [main] makes with it find an entry; and when it
    shows an error on the page, the language is ["English"]. *)
Theorem detect_language_supported (text model : pystr)
  (remote : chat_request -> outcome response) :
  exists lang shown info,
    run remote (MultilingualApp.detect_language text model)
    = (Returned (lang, shown), [RemoteCall (detector_request text model)])
    /\ In lang MultilingualApp.language_names
    /\ MultilingualApp.language_info lang MultilingualApp.INDIAN_LANGUAGES
       = Returned info
    /\ (shown = [] \/ lang = lit "English").
Proof.
  assert (Hen : In (lit "English") MultilingualApp.language_names)
    by in_list.
  assert (Hkey : forall (lang : pystr) (shown : list pystr)
                        (trace : list event),
             In lang MultilingualApp.language_names ->
             shown = [] \/ lang = lit "English" ->
             exists lang' shown' info,
               (Returned (lang, shown), trace)
               = (Returned (lang', shown'), trace)
               /\ In lang' MultilingualApp.language_names
               /\ MultilingualApp.language_info lang'
                    MultilingualApp.INDIAN_LANGUAGES = Returned info
               /\ (shown' = [] \/ lang' = lit "English")).
  { intros lang shown trace Hin Hs.
    destruct (language_info_known lang Hin) as (info & Hinfo).
    exists lang, shown, info. auto. }
  unfold MultilingualApp.detect_language, chat_completions_create.
  fold (detector_request text model). cbn [bind try_except run].
  destruct (remote (detector_request text model)) as [r|e];
    cbn [lift bind try_except run]; [|apply Hkey; auto].
  destruct (first_content r) as [answer|e];
    cbn [lift bind try_except run]; [|apply Hkey; auto].
  destruct (item (split_ws (strip answer)) 0) as [first|e];
    cbn [lift bind try_except run]; [|apply Hkey; auto].
  destruct (MultilingualApp.is_language _) eqn:Eis;
    cbn [try_except run].
  - apply Hkey; [now apply is_language_in|auto].
  - destruct (find _ MultilingualApp.language_names) as [lang|] eqn:Ef;
      cbn [try_except run]; apply Hkey; auto.
    now apply find_some in Ef.
Qed.

(** X21. An answer that is empty or all white space has no first word:
    the detector shows the error of the index, [list index out of
    range], and returns ["English"]. *)
Theorem detect_language_blank_answer (text model : pystr)
  (remote : chat_request -> outcome response) (r : response)
  (answer : pystr) :
  remote (detector_request text model) = Returned r ->
  first_content r = Returned answer ->
  all_space answer ->
  run remote (MultilingualApp.detect_language text model)
  = (Returned (lit "English",
               [lit "Language detection error: "
                ++ lit "list index out of range"]),
     [RemoteCall (detector_request text model)]).
Proof.
  intros Hr Ha Hblank.
  unfold MultilingualApp.detect_language, chat_completions_create.
  fold (detector_request text model). cbn [bind try_except run].
  rewrite Hr. cbn [lift bind]. rewrite Ha. cbn [lift bind].
  rewrite strip_all_space by exact Hblank. reflexivity.
Qed.

(** X22. The detector reads the first word of the answer and drops the
    punctuation around it: an answer that is, after any white space, the
    name of a listed language, with full stops, commas, colons or quotes
    before and after it, and then nothing or more text after white
    space, gives that language and no error. *)
Theorem detect_language_reads_first_word (text model : pystr)
  (remote : chat_request -> outcome response) (r : response)
  (name ws p1 p2 rest : pystr) :
  remote (detector_request text model) = Returned r ->
  first_content r = Returned (ws ++ (p1 ++ name ++ p2) ++ rest) ->
  In name MultilingualApp.language_names ->
  all_space ws -> all_punctuation p1 -> all_punctuation p2 ->
  word_ends rest ->
  run remote (MultilingualApp.detect_language text model)
  = (Returned (name, []), [RemoteCall (detector_request text model)]).
Proof.
  intros Hr Ha Hname Hws Hp1 Hp2 Hrest.
  assert (Hshape : exists a body z,
             name = a :: body ++ [z]
             /\ one_of MultilingualApp.punctuation a = false
             /\ one_of MultilingualApp.punctuation z = false
             /\ Forall (fun c => isspace c = false) name).
  { cbn in Hname.
    repeat (destruct Hname as [<-|Hname];
            [match goal with
             | |- exists a body z, ?L = _ /\ _ =>
                 exists (hd 0%N L), (removelast (tl L)), (last L 0%N)
             end;
             split; [reflexivity|];
             split; [reflexivity|];
             split; [reflexivity|];
             repeat constructor|]).
    destruct Hname. }
  destruct Hshape as (a & body & z & -> & Hpa & Hpz & Hsp).
  unfold MultilingualApp.detect_language, chat_completions_create.
  fold (detector_request text model). cbn [bind try_except run].
  rewrite Hr. cbn [lift bind]. rewrite Ha. cbn [lift bind].
  rewrite split_ws_strip, split_ws_skip by exact Hws.
  rewrite split_ws_word; [| | |exact Hrest].
  - cbn [item nth_error lift bind].
    rewrite strip_chars_core by assumption.
    replace (MultilingualApp.is_language (a :: body ++ [z])) with true
      by (symmetry; now apply is_language_in).
    reflexivity.
  - destruct p1; discriminate.
  - apply Forall_app. split.
    + eapply Forall_impl; [|exact Hp1]. apply punctuation_not_space.
    + apply Forall_app. split; [exact Hsp|].
      eapply Forall_impl; [|exact Hp2]. apply punctuation_not_space.
Qed.

End Detector.

Lemma detect_language_blank_answer_witness :
  run (remote_says (lit "  "))
      (@MultilingualApp.detect_language (ascii_runtime reject_all)
         ascii_unicode
         (lit "namaste") default_model)
  = (Returned (lit "English",
               [lit "Language detection error: "
                ++ lit "list index out of range"]),
     [RemoteCall (@detector_request ascii_unicode (lit "namaste")
                    default_model)]).
Proof.
  apply (@detect_language_blank_answer (ascii_runtime reject_all)
           ascii_unicode (lit "namaste")
           default_model (remote_says (lit "  "))
           (MkResp [MkChoice (Some (lit "  "))]) (lit "  "));
    try reflexivity.
  repeat constructor.
Defined.

Lemma detect_language_reads_first_word_witness :
  run (remote_says (lit " " ++ dq ++ lit "Hindi" ++ dq ++ lit ". I think"))
      (@MultilingualApp.detect_language (ascii_runtime reject_all)
         ascii_unicode
         (lit "namaste") default_model)
  = (Returned (lit "Hindi", []),
     [RemoteCall (@detector_request ascii_unicode (lit "namaste")
                    default_model)]).
Proof.
  apply (@detect_language_reads_first_word (ascii_runtime reject_all)
           ascii_unicode (lit "namaste")
           default_model
           (remote_says (lit " " ++ dq ++ lit "Hindi" ++ dq ++ lit ". I think"))
           (MkResp [MkChoice (Some (lit " " ++ dq ++ lit "Hindi" ++ dq
                                    ++ lit ". I think"))])
           (lit "Hindi") (lit " ") dq (dq ++ lit ".") (lit " I think"));
    try reflexivity.
  - in_list.
  - repeat constructor.
  - repeat constructor.
  - repeat constructor.
  - right. exists 32%N, (lit "I think"). split; reflexivity.
Defined.

(** ** The language selector *)

Lemma split_on_absent (sep : N) (s : pystr) :
  ~ In sep s -> split_on sep s = [s].
Proof.
  induction s as [|c s IH]; [reflexivity|].
  intros Hn. cbn [split_on].
  destruct (N.eqb_spec c sep) as [->|]; [exfalso; apply Hn; now left|].
  rewrite IH by (intros H; apply Hn; now right). reflexivity.
Qed.

Lemma split_on_first (sep : N) (a b : pystr) :
  ~ In sep a -> split_on sep (a ++ sep :: b) = a :: split_on sep b.
Proof.
  induction a as [|c a IH]; intros Hn.
  - cbn [app split_on]. now rewrite N.eqb_refl.
  - cbn [app split_on].
    destruct (N.eqb_spec c sep) as [->|]; [exfalso; apply Hn; now left|].
    rewrite IH by (intros H; apply Hn; now right). reflexivity.
Qed.

(** X23. The option texts of the language selector can be read back: for
    a display name without an opening parenthesis and a key without
    parentheses, the key is recovered from [display (key)]; and every
    entry of [INDIAN_LANGUAGES] is of that kind, so that the selection
    is always a key of the table. *)
Theorem language_option_round_trip :
  (forall shown name : pystr,
      ~ In 40%N shown -> ~ In 40%N name -> ~ In 41%N name ->
      MultilingualApp.selected_language
        (shown ++ lit " (" ++ name ++ lit ")")
      = Returned name)
  /\ (forall entry,
        In entry MultilingualApp.INDIAN_LANGUAGES ->
        MultilingualApp.selected_language
          (MultilingualApp.language_option entry)
        = Returned (fst entry)).
Proof.
  assert (Hgen : forall shown name : pystr,
             ~ In 40%N shown -> ~ In 40%N name -> ~ In 41%N name ->
             MultilingualApp.selected_language
               (shown ++ lit " (" ++ name ++ lit ")")
             = Returned name).
  { intros shown name Hs Hn1 Hn2. unfold MultilingualApp.selected_language.
    change (shown ++ lit " (" ++ name ++ lit ")")
      with (shown ++ [32%N] ++ 40%N :: (name ++ [41%N])).
    rewrite app_assoc, split_on_first.
    - rewrite split_on_absent.
      + cbn [item nth_error obind]. rewrite split_on_first by exact Hn2.
        reflexivity.
      + intros H. apply in_app_or in H as [H|[H|[]]];
          [contradiction|discriminate].
    - intros H. apply in_app_or in H as [H|[H|[]]];
        [contradiction|discriminate]. }
  split; [exact Hgen|].
  intros [name info] Hin. unfold MultilingualApp.language_option.
  cbn [fst snd]. cbn in Hin.
  repeat (destruct Hin as [[= <- <-]|Hin];
          [apply Hgen; cbn; intuition discriminate|]).
  destruct Hin.
Qed.

Lemma language_option_round_trip_witness :
  MultilingualApp.selected_language
    ([2980; 2990; 3007; 2996; 3021]%N ++ lit " (" ++ lit "Tamil" ++ lit ")")
  = Returned (lit "Tamil").
Proof.
  apply (proj1 language_option_round_trip
               [2980; 2990; 3007; 2996; 3021]%N (lit "Tamil"));
    cbn; intuition discriminate.
Defined.

(** ** The request driver of the multilingual file *)

Section BlankTopic.
Context {RT : Runtime} {UC : MultilingualApp.Unicode}.

(** X24. A request whose topic is empty after stripping, such as a
    request that ends right after the white space that follows
    [slides], makes the driver of the multilingual file raise
    [IndexError] at once, before it shows or asks anything: the topic has
    no first character to test.  The driver of [streamlit1.py] goes on
    with the same request and calls the generator with the capitalised
    empty topic. *)
Theorem blank_topic_raises (user_input topic0 : pystr) :
  extract_topic user_input = Some topic0 ->
  strip topic0 = [] ->
  MultilingualApp.process_ppt_request user_input
  = Raise (MkExn IndexError (lit "string index out of range"))
  /\ forall remote,
       exists result rest,
         run remote (Streamlit1.process_ppt_request user_input)
         = (result, before_generation (capitalize []) ++ rest).
Proof.
  intros Htopic Hblank. split.
  - unfold MultilingualApp.process_ppt_request,
      MultilingualApp.format_topic.
    rewrite Htopic. cbn [bind]. rewrite Hblank. reflexivity.
  - intros remote. unfold Streamlit1.process_ppt_request.
    rewrite Htopic. cbn [bind run]. rewrite Hblank.
    destruct (generator_always_returns (capitalize []) default_model remote)
      as (v & Hrun).
    rewrite run_bind, Hrun. clear Hrun.
    destruct (run remote _) as [result rest].
    exists result, rest. reflexivity.
Qed.

End BlankTopic.

Lemma blank_topic_raises_witness :
  @MultilingualApp.process_ppt_request (ascii_runtime reject_all)
     ascii_unicode (lit "make slides ")
  = Raise (MkExn IndexError (lit "string index out of range")).
Proof.
  apply (@blank_topic_raises (ascii_runtime reject_all) ascii_unicode
           (lit "make slides ") []); reflexivity.
Defined.

(** ** More on the topic and the generator *)

Lemma star_dot_consumed {R} (k : Re.cont R) (fuel : nat) :
  forall s g m,
    star_rounds (Re.One Re.CDot) k fuel s g = Some m ->
    exists taken left,
      s = taken ++ left /\ ~ In 10%N taken /\ k left g = Some m.
Proof.
  induction fuel as [|fuel IH]; intros s g m; cbn [star_rounds].
  - intros H. exists [], s. auto.
  - destruct s as [|c s]; cbn [Re.mt Re.orelse].
    + intros H. exists [], []. auto.
    + cbn [Re.cset_match].
      destruct (N.eqb_spec c 10%N) as [->|Hc]; cbn [negb Re.orelse].
      * intros H. exists [], (10%N :: s). auto.
      * destruct (length s <? length (c :: s));
          [|cbn [Re.orelse]; intros H; exists [], (c :: s); auto].
        destruct (star_rounds (Re.One Re.CDot) k fuel s g) as [x|] eqn:E;
          cbn [Re.orelse].
        -- intros [= ->]. apply IH in E as (taken & left & -> & Hn & Hk).
           exists (c :: taken), left. repeat split; auto.
           intros [H|H]; [congruence|contradiction].
        -- intros H. exists [], (c :: s). auto.
Qed.

Lemma firstn_taken (taken left : pystr) :
  firstn (length (taken ++ left) - length left) (taken ++ left) = taken.
Proof.
  rewrite length_app, Nat.add_sub, firstn_app, Nat.sub_diag, firstn_all.
  cbn [firstn]. apply app_nil_r.
Qed.

Lemma match_at_topic_line (s : pystr) (m : Re.match_obj) :
  Re.match_at topic_pattern s = Some m ->
  exists t, Re.group1 m = Some t /\ ~ In 10%N t.
Proof.
  unfold Re.match_at, topic_pattern. intros H.
  do 6 (apply mt_seq_from_cont in H as (? & ? & H)).
  match type of H with
  | Re.mt (Re.Group ?r) ?s' ?g ?k = _ =>
      change (Re.mt r s' g
                (fun s'' _ =>
                   k s'' (Some (firstn (length s' - length s'') s')))
              = Some m) in H
  end.
  rewrite mt_star in H.
  apply star_dot_consumed in H as (taken & left & -> & Hn & H).
  rewrite firstn_taken in H. injection H as <-.
  exists taken. now split.
Qed.

Section Topic.
Context {RT : Runtime}.

(** X25. When the pattern matches, the topic is one line: it holds no
    line break, so whatever the request says after a line break is not
    part of the topic.  Without a match the topic is the whole
    request. *)
Theorem topic_is_one_line (user_input topic0 : pystr) :
  extract_topic user_input = Some topic0 ->
  ~ In 10%N topic0 \/ topic0 = user_input.
Proof.
  unfold extract_topic.
  destruct (Re.search topic_pattern (lower user_input)) as [m|] eqn:E.
  - intros Hg. left. revert E.
    generalize (lower user_input) as s.
    induction s as [|c s IH]; cbn [Re.search].
    + destruct (Re.match_at topic_pattern []) eqn:Em; cbn [Re.orelse];
        [|discriminate].
      intros [= ->]. apply match_at_topic_line in Em as (t & Ht & Hn).
      congruence.
    + destruct (Re.match_at topic_pattern (c :: s)) eqn:Em;
        cbn [Re.orelse]; [|exact IH].
      intros [= ->]. apply match_at_topic_line in Em as (t & Ht & Hn).
      congruence.
  - intros [= <-]. now right.
Qed.


(** X27. The generator reads its object out of the prose around it: when
    the stripped response holds a closing brace after its first opening
    brace, what is parsed is the text from that brace to the last
    closing brace, and what the parser returns for it is what the
    generator returns, unchanged. *)
Theorem generator_parses_the_span (prompt model : pystr)
  (remote : chat_request -> outcome response) (r : response)
  (text pre mid post : pystr) (v : pyvalue) :
  remote (generator_request prompt model) = Returned r ->
  first_content r = Returned text ->
  strip text = pre ++ 123%N :: mid ++ 125%N :: post ->
  ~ In 123%N pre -> ~ In 125%N post ->
  json_loads (123%N :: mid ++ [125%N]) = Returned v ->
  run remote (generate_presentation_content prompt model)
  = (Returned v, [RemoteCall (generator_request prompt model)]).
Proof.
  intros Hr Ht Hs Hpre Hpost Hv.
  unfold generate_presentation_content, chat_completions_create.
  fold (generator_request prompt model). cbn [bind try_except run].
  rewrite Hr. cbn [lift bind]. rewrite Ht. cbn [lift bind].
  rewrite Hs, extract_json_span by assumption.
  rewrite Hv. reflexivity.
Qed.

End Topic.

Lemma topic_is_one_line_witness :
  ~ In 10%N (lit "cells")
  \/ lit "cells" = lit "create a ppt on cells" ++ [10%N] ++ lit "and dna".
Proof.
  apply (@topic_is_one_line (ascii_runtime reject_all)
           (lit "create a ppt on cells" ++ [10%N] ++ lit "and dna")
           (lit "cells")).
  vm_compute. reflexivity.
Defined.

Lemma generator_parses_the_span_witness :
  run (remote_says (lit "Here you go: {} Enjoy!"))
      (@generate_presentation_content (ascii_runtime loads_short_deck)
         (lit "Photosynthesis") default_model)
  = (Returned short_deck,
     [RemoteCall (@generator_request (ascii_runtime loads_short_deck)
                    (lit "Photosynthesis") default_model)]).
Proof.
  apply (@generator_parses_the_span (ascii_runtime loads_short_deck)
           (lit "Photosynthesis") default_model
           (remote_says (lit "Here you go: {} Enjoy!"))
           (MkResp [MkChoice (Some (lit "Here you go: {} Enjoy!"))])
           (lit "Here you go: {} Enjoy!")
           (lit "Here you go: ") [] (lit " Enjoy!"));
    try reflexivity; cbn; intuition discriminate.
Defined.
